(** * Make MCP server: the scenario-to-tool bridge

    A shallow embedding of the two request handlers of [src/index.ts]
    (the [ListToolsRequestSchema] handler and the [CallToolRequestSchema]
    handler) and of the second copy of that file kept in the repository.
    The handlers talk to three collaborators: the Make adapter
    ([make.scenarios.list], [.interface], [.run]), the results service
    reached through [fetch], and [remap] from [utils.ts].  Collaborator
    answers are read from a [World]; every call a handler issues is
    appended to a trace, so that a statement such as: no request is sent,
    can be read off the trace. *)

From Stdlib Require Import ZArith Ascii Bool Lia.
From stdpp Require Import list strings pretty gmap.

Set Warnings "-register-all".
Local Open Scope Z_scope.

(** ** JavaScript strings *)

Module JsString.

(** [s.substring(n)]: the suffix of [s] that starts at index [n]. *)
Fixpoint substring (n : nat) (s : string) : string :=
  match n, s with
  | O, _ => s
  | S _, EmptyString => EmptyString
  | S n', String _ s' => substring n' s'
  end.

(** [s.startsWith(p)]. *)
Definition startsWith (s p : string) : bool := String.prefix p s.

(** [s.includes(sub)]. *)
Fixpoint includes (s sub : string) : bool :=
  startsWith s sub ||
  match s with
  | EmptyString => false
  | String _ s' => includes s' sub
  end.

(** [parts.join(sep)]. *)
Fixpoint join (sep : string) (parts : list string) : string :=
  match parts with
  | [] => ""
  | [p] => p
  | p :: rest => p +:+ sep +:+ join sep rest
  end.

(** [" ".repeat(n)]. *)
Fixpoint spaces (n : nat) : string :=
  match n with
  | O => ""
  | S n' => String " " (spaces n')
  end.

(** Truthiness of a string: every string but the empty one. *)
Definition truthy (s : string) : bool :=
  match s with
  | EmptyString => false
  | String _ _ => true
  end.

End JsString.

(** ** JSON values

    A parsed JSON document as the JavaScript value [JSON.parse] builds.
    A number is carried by the text [Number::toString] prints for it (the
    only thing the handlers ever do with a number coming from a body);
    floating-point arithmetic is not modelled.  An object is the sequence
    of its own enumerable properties in the order the engine enumerates
    them. *)

Inductive json : Type :=
| JNull
| JBool (b : bool)
| JNumber (repr : string)
| JString (s : string)
| JArray (items : list json)
| JObject (props : list (string * json)).

Module Json.

(** [o[key]] for an own property of a parsed object. *)
Fixpoint own_property (key : string) (props : list (string * json)) : option json :=
  match props with
  | [] => None
  | (k, v) :: rest => if String.eqb k key then Some v else own_property key rest
  end.

(** The double quote and the backslash. *)
Definition dquote : ascii := ascii_of_N 34.
Definition backslash : ascii := ascii_of_N 92.

(** Four-digit lower-case hexadecimal escape of a control character. *)
Definition hex_digit (n : N) : ascii :=
  match n with
  | 0 => "0" | 1 => "1" | 2 => "2" | 3 => "3" | 4 => "4" | 5 => "5"
  | 6 => "6" | 7 => "7" | 8 => "8" | 9 => "9" | 10 => "a" | 11 => "b"
  | 12 => "c" | 13 => "d" | 14 => "e" | _ => "f"
  end%N%char.

Definition unicode_escape (c : ascii) : string :=
  let n := N_of_ascii c in
  String backslash "u00" +:+ String (hex_digit (n / 16)) (String (hex_digit (n mod 16)) "").

(** One code unit of [QuoteJSONString]. *)
Definition escape_char (c : ascii) : string :=
  let n := N_of_ascii c in
  if (n =? 8)%N then String backslash "b"
  else if (n =? 9)%N then String backslash "t"
  else if (n =? 10)%N then String backslash "n"
  else if (n =? 12)%N then String backslash "f"
  else if (n =? 13)%N then String backslash "r"
  else if (n =? 34)%N then String backslash (String c "")
  else if (n =? 92)%N then String backslash (String backslash "")
  else if (n <? 32)%N then unicode_escape c
  else String c "".

Fixpoint escape (s : string) : string :=
  match s with
  | EmptyString => ""
  | String c s' => escape_char c +:+ escape s'
  end.

(** [QuoteJSONString]. *)
Definition quote (s : string) : string :=
  String dquote (escape s +:+ String dquote "").

(** Closing of an array or object by [SerializeJSONArray] and
    [SerializeJSONObject]: [partial] are the serialized members,
    [stepback] the indentation of the enclosing level and [indent] the
    indentation of the members. *)
Definition enclose (open close gap stepback indent : string)
    (partial : list string) : string :=
  match partial with
  | [] => open +:+ close
  | _ =>
    match gap with
    | EmptyString => open +:+ JsString.join "," partial +:+ close
    | _ =>
      let newline := String (ascii_of_N 10) "" in
      let separator := "," +:+ newline +:+ indent in
      open +:+ newline +:+ indent +:+ JsString.join separator partial
           +:+ newline +:+ stepback +:+ close
    end
  end.

(** [SerializeJSONProperty] on a parsed value (no [undefined], no
    functions, no [toJSON] method can occur in one). *)
Fixpoint serialize (gap indent : string) (v : json) : string :=
  match v with
  | JNull => "null"
  | JBool true => "true"
  | JBool false => "false"
  | JNumber repr => repr
  | JString s => quote s
  | JArray items =>
    let stepback := indent in
    let indent := stepback +:+ gap in
    enclose "[" "]" gap stepback indent (map (serialize gap indent) items)
  | JObject props =>
    let stepback := indent in
    let indent := stepback +:+ gap in
    let colon := match gap with EmptyString => ":" | _ => ": " end in
    enclose "{" "}" gap stepback indent
      (map (fun kv => let '(k, x) := kv in
                      quote k +:+ colon +:+ serialize gap indent x) props)
  end.

(** [JSON.stringify(v, null, space)] for a numeric [space]: the gap is
    [min(space, 10)] blanks. *)
Definition stringify (v : json) (space : nat) : string :=
  serialize (JsString.spaces (Nat.min space 10)) "" v.

(** [ToBoolean]. *)
Definition truthy (v : json) : bool :=
  match v with
  | JNull => false
  | JBool b => b
  | JNumber repr => negb (String.eqb repr "0")
  | JString s => JsString.truthy s
  | JArray _ | JObject _ => true
  end.

(** [ToString], as a template literal applies it.  [None] stands for the
    [TypeError] "Cannot convert object to primitive value": an object
    whose own [toString] property shadows [Object.prototype.toString]
    cannot be converted, since no member of a parsed document is
    callable.  An array is converted by [join(",")], where [null]
    elements give the empty string. *)
Fixpoint to_string (v : json) : option string :=
  match v with
  | JNull => Some "null"
  | JBool true => Some "true"
  | JBool false => Some "false"
  | JNumber repr => Some repr
  | JString s => Some s
  | JArray items =>
    JsString.join "," <$>
      mapM (fun x => match x with JNull => Some "" | _ => to_string x end) items
  | JObject props =>
    match own_property "toString" props with
    | Some _ => None
    | None => Some "[object Object]"
    end
  end.

End Json.

(** ** JavaScript numbers

    The numbers the handlers handle are identifiers and HTTP status codes:
    integers, or [NaN] when [parseInt] finds no digit.  An integer is
    printed in decimal ([Number::toString], stdpp's [pretty]). *)

Inductive number : Type :=
| NaN
| Int (z : Z).

Module JsNumber.

Definition toString (z : Z) : string := pretty z.

(** White space that [parseInt] skips (the ASCII part of
    [StrWhiteSpaceChar]). *)
Definition is_whitespace (c : ascii) : bool :=
  let n := N_of_ascii c in
  ((9 <=? n) && (n <=? 13) || (n =? 32))%N.

Fixpoint trimStart (s : string) : string :=
  match s with
  | String c s' => if is_whitespace c then trimStart s' else s
  | EmptyString => s
  end.

(** Value of [c] as a digit of the given radix (10 or 16). *)
Definition digit (radix : Z) (c : ascii) : option Z :=
  let n := Z.of_N (N_of_ascii c) in
  let d :=
    if (48 <=? n) && (n <=? 57) then Some (n - 48)
    else if (97 <=? n) && (n <=? 102) then Some (n - 87)
    else if (65 <=? n) && (n <=? 70) then Some (n - 55)
    else None in
  match d with
  | Some v => if v <? radix then Some v else None
  | None => None
  end.

(** The integer written by the longest prefix of [s] made of digits;
    [acc] is [None] as long as no digit was read. *)
Fixpoint digits_value (radix : Z) (s : string) (acc : option Z) : option Z :=
  match s with
  | EmptyString => acc
  | String c s' =>
    match digit radix c with
    | Some d => digits_value radix s' (Some (default 0 acc * radix + d))
    | None => acc
    end
  end.

(** [parseInt(s)] with no radix argument. *)
Definition parseInt (s : string) : number :=
  let s := trimStart s in
  let '(sign, s) :=
    match s with
    | String "-" s' => (-1, s')
    | String "+" s' => (1, s')
    | _ => (1, s)
    end in
  let '(radix, s) :=
    match s with
    | String "0" (String "x" s') | String "0" (String "X" s') => (16, s')
    | _ => (10, s)
    end in
  match digits_value radix s None with
  | Some v => Int (sign * v)
  | None => NaN
  end.

(** [\d]. *)
Definition is_digit (c : ascii) : bool :=
  let n := N_of_ascii c in ((48 <=? n) && (n <=? 57))%N.

Fixpoint all_digits (s : string) : bool :=
  match s with
  | EmptyString => true
  | String c s' => is_digit c && all_digits s'
  end.

End JsNumber.

(** ** Thrown values and the SDK's error class *)

(** [ErrorCode] is a numeric enumeration of the MCP SDK. *)
Definition ErrorCode : Type := Z.
Definition InvalidRequest : ErrorCode := -32600.
Definition InternalError : ErrorCode := -32603.

(** What a [catch] clause can receive: an [McpError] (with its [code] and
    its [message] property), another [Error] (with [name] and [message]),
    or a value that is no [Error] at all, carried by its [String(...)]
    rendering. *)
Inductive Thrown : Type :=
| McpError (code : ErrorCode) (message : string)
| Error (name message : string)
| Value (rendering : string).

(** [new McpError(code, message)]: the SDK's constructor passes
    [`MCP error ${code}: ${message}`] to [Error]. *)
Definition new_McpError (code : ErrorCode) (message : string) : Thrown :=
  McpError code ("MCP error " +:+ JsNumber.toString code +:+ ": " +:+ message).

Definition new_TypeError (message : string) : Thrown := Error "TypeError" message.

(** [String(err)]: [Error.prototype.toString] for the two kinds of
    [Error]; the name of an [McpError] is ["McpError"]. *)
Definition String_ (err : Thrown) : string :=
  let show name message :=
    match name, message with
    | EmptyString, _ => message
    | _, EmptyString => name
    | _, _ => name +:+ ": " +:+ message
    end in
  match err with
  | McpError _ message => show "McpError" message
  | Error name message => show name message
  | Value rendering => rendering
  end.

(** Outcome of an awaited call or of a block: a value, or a thrown one. *)
Inductive Completion (A : Type) : Type :=
| Return (a : A)
| Throw (e : Thrown).
Arguments Return {A} a.
Arguments Throw {A} e.

(** ** Data model

    The type declarations of [types.ts] are not among the sources; the
    records below have the fields the handlers read. *)

(** A scenario as [make.scenarios.list] returns it. *)
Record Scheduling : Type := { type : string }.

Record Scenario : Type := {
  id : Z;
  name : string;
  description : option string;
  scheduling : Scheduling;
}.

(** Modelled from the spec: the type of an interface node is declared in
    [types.ts], which is not among the sources.  The handler builds a node
    from [name], [type] and [spec]; the data model of the specification
    adds the marking of required fields and the labels and descriptions
    ([d_required], [d_label], [d_help]). *)
Inductive Descriptor : Type :=
| mkDescriptor (d_name d_type : string) (d_spec : list Descriptor)
    (d_required : bool) (d_label d_help : option string).

Definition d_name (d : Descriptor) : string := let '(mkDescriptor n _ _ _ _ _) := d in n.
Definition d_type (d : Descriptor) : string := let '(mkDescriptor _ t _ _ _ _) := d in t.
Definition d_spec (d : Descriptor) : list Descriptor := let '(mkDescriptor _ _ s _ _ _) := d in s.
Definition d_required (d : Descriptor) : bool := let '(mkDescriptor _ _ _ r _ _) := d in r.
Definition d_label (d : Descriptor) : option string := let '(mkDescriptor _ _ _ _ l _) := d in l.
Definition d_help (d : Descriptor) : option string := let '(mkDescriptor _ _ _ _ _ h) := d in h.

(** What [make.scenarios.interface] returns: [input] may be missing. *)
Record Interface : Type := { input : option (list Descriptor) }.

(** [ScenarioRunServerResponse]. *)
Record ScenarioRunServerResponse : Type := {
  executionId : string;
  status : option string;
}.

(** The [Response] of [fetch]: status code and body; [ok] is derived. *)
Record Response : Type := {
  res_status : Z;
  res_body : string;
}.

Definition ok (res : Response) : bool :=
  (200 <=? res_status res) && (res_status res <=? 299).

(** An entry of the [tools] array. *)
Record Tool : Type := {
  tool_name : string;
  tool_description : string;
  inputSchema : json;
}.

(** [request.params] of a call-tool request. *)
Record CallToolRequest : Type := {
  params_name : string;
  params_arguments : option json;
}.

Record CallToolResult : Type := { toolResult : string }.

(** Values read from the environment at start-up. *)
Record Config : Type := {
  teamId : number;
  resultsApiUrl : string;
  resultsApiSecretKey : string;
}.

(** ** Collaborators and the handler monad *)

(** A call issued to a collaborator. *)
Inductive Call : Type :=
| CallList (team : number)
| CallInterface (scenarioId : Z)
| CallRun (scenarioId : number) (body : option json)
| CallFetch (url apiKey : string).

(** What the collaborators answer.  [JSON_parse] is the platform's parser,
    used both by [JSON.parse] and by [Response.json()]. *)
Record World : Type := {
  scenarios_list : number -> Completion (list Scenario);
  scenarios_interface : Z -> Completion Interface;
  scenarios_run : number -> option json -> Completion ScenarioRunServerResponse;
  fetch : string -> string -> Completion Response;
  JSON_parse : string -> Completion json;
}.

(** State of a handler activation: the calls issued so far, oldest first,
    and the handler's mutable local [executionId]. *)
Record State : Type := {
  calls : list Call;
  executionId_var : string;
}.

Definition initial : State := {| calls := []; executionId_var := "" |}.

Definition Async (A : Type) : Type := World -> State -> State * Completion A.

Module Async.

Definition ret {A} (a : A) : Async A := fun _ st => (st, Return a).

Definition throw {A} (e : Thrown) : Async A := fun _ st => (st, Throw e).

Definition bind {A B} (m : Async A) (k : A -> Async B) : Async B :=
  fun w st =>
    match m w st with
    | (st', Return a) => k a w st'
    | (st', Throw e) => (st', Throw e)
    end.

(** [try { body } catch (e) { handler }]. *)
Definition try_catch {A} (body : Async A) (handler : Thrown -> Async A) : Async A :=
  fun w st =>
    match body w st with
    | (st', Return a) => (st', Return a)
    | (st', Throw e) => handler e w st'
    end.

(** A value or exception computed without any call. *)
Definition lift {A} (c : Completion A) : Async A := fun _ st => (st, c).

(** Issue call [c] and await the answer [answer] reads from the world. *)
Definition call {A} (c : Call) (answer : World -> Completion A) : Async A :=
  fun w st =>
    ({| calls := calls st ++ [c]; executionId_var := executionId_var st |}, answer w).

Definition get_executionId : Async string :=
  fun _ st => (st, Return (executionId_var st)).

Definition set_executionId (v : string) : Async unit :=
  fun _ st => ({| calls := calls st; executionId_var := v |}, Return tt).

(** [Promise.all(tasks)] over async functions that are started in list
    order.  Each task here issues its only call before its first
    suspension, so the calls reach the trace in list order whatever the
    order of the answers; the results are collected by position.  Every
    task is started even if an earlier one rejects. *)
Fixpoint all {A} (tasks : list (Async A)) : Async (list A) :=
  match tasks with
  | [] => ret []
  | t :: rest =>
    fun w st =>
      match t w st with
      | (st', Return a) =>
        match all rest w st' with
        | (st'', Return l) => (st'', Return (a :: l))
        | (st'', Throw e) => (st'', Throw e)
        end
      | (st', Throw e) => (fst (all rest w st'), Throw e)
      end
  end.

End Async.

Declare Scope async_scope.
Delimit Scope async_scope with async.
Notation "'let*' x ':=' m 'in' k" := (Async.bind m (fun x => k))
  (at level 10, x pattern, m at level 100, k at level 200,
   format "'[v' 'let*'  x  ':='  m  'in' '/' k ']'") : async_scope.
Notation "m ';;' k" := (Async.bind m (fun _ => k))
  (at level 100, k at level 200, right associativity) : async_scope.

(** The collaborators' operations. *)
Definition make_scenarios_list (team : number) : Async (list Scenario) :=
  Async.call (CallList team) (fun w => scenarios_list w team).

Definition make_scenarios_interface (scenarioId : Z) : Async Interface :=
  Async.call (CallInterface scenarioId) (fun w => scenarios_interface w scenarioId).

Definition make_scenarios_run (scenarioId : number) (body : option json)
  : Async ScenarioRunServerResponse :=
  Async.call (CallRun scenarioId body) (fun w => scenarios_run w scenarioId body).

(** [fetch(url, {method: 'GET', headers: {'X-API-Key': apiKey, 'Accept':
    'application/json'}})]. *)
Definition fetch_GET (url apiKey : string) : Async Response :=
  Async.call (CallFetch url apiKey) (fun w => fetch w url apiKey).

Definition Response_text (res : Response) : Async string := Async.ret (res_body res).

Definition Response_json (res : Response) : Async json :=
  fun w st => (st, JSON_parse w (res_body res)).

Definition JSON_parse_ (text : string) : Async json :=
  fun w st => (st, JSON_parse w text).

(** [v.key] for a parsed value [v] and a key that is neither inherited nor
    built into strings and arrays (as [error] and [output] are not):
    [None] is [undefined]; reading a property of [null] throws. *)
Definition get_property (v : json) (key : string) : Completion (option json) :=
  match v with
  | JNull =>
    Throw (new_TypeError ("Cannot read properties of null (reading '" +:+ key +:+ "')"))
  | JObject props => Return (Json.own_property key props)
  | _ => Return None
  end.

(** [`${v}`] for a parsed value. *)
Definition template (v : json) : Completion string :=
  match Json.to_string v with
  | Some s => Return s
  | None => Throw (new_TypeError "Cannot convert object to primitive value")
  end.

Local Open Scope async_scope.

(** ** The list-tools handler

    The body of the [ListToolsRequestSchema] handler; both copies of
    [index.ts] have the same one (they differ in the console stream they
    log to, and logging is left out).  [remap] comes from [utils.ts]. *)

Section ListTools.

Variable remap : Descriptor -> Completion json.
Variable cfg : Config.

(** [`run_scenario_${scenario.id}`]. *)
Definition toolName (scenarioId : Z) : string :=
  "run_scenario_" +:+ JsNumber.toString scenarioId.

(** [scenario.name + (scenario.description ? ` (${scenario.description})` : '')]. *)
Definition toolDescription (scenario : Scenario) : string :=
  name scenario +:+
  match description scenario with
  | Some d => if JsString.truthy d then " (" +:+ d +:+ ")" else ""
  | None => ""
  end.

(** The async function mapped over the on-demand scenarios: the tool, or
    [None] for [null]. *)
Definition scenarioTool (scenario : Scenario) : Async (option Tool) :=
  Async.try_catch
    (let* iface := make_scenarios_interface (id scenario) in
     let inputs := default [] (input iface) in
     let* schema := Async.lift (remap (mkDescriptor "wrapper" "collection" inputs false None None)) in
     Async.ret (Some {| tool_name := toolName (id scenario);
                        tool_description := toolDescription scenario;
                        inputSchema := schema |}))
    (fun interfaceError => Async.ret None).

Definition ListTools_handler : Async (list Tool) :=
  Async.try_catch
    (let* scenarios := make_scenarios_list (teamId cfg) in
     let onDemandScenarios :=
       filter (fun scenario => type (scheduling scenario) = "on-demand") scenarios in
     let* tools := Async.all (map scenarioTool onDemandScenarios) in
     let validTools := omap (fun tool => tool) tools in
     Async.ret validTools)
    (fun error =>
       Async.throw (new_McpError InternalError
                      ("Failed to list Make scenarios: " +:+ String_ error))).

End ListTools.

(** ** The call-tool handler

    The body of the [CallToolRequestSchema] handler, once for
    [src/index.ts] and once for the second copy of the file
    ([src/unnamed/part_000]).  Console output is left out; the mutable
    local [executionId], read by the [catch] block, is kept in the state. *)

(** [/^run_scenario_\d+$/.test(name)]. *)
Definition test_tool_name (name : string) : bool :=
  JsString.startsWith name "run_scenario_" &&
  let rest := JsString.substring 13 name in
  JsString.truthy rest && JsNumber.all_digits rest.

(** [a || b] on an optional parsed value. *)
Definition or_else (a : option json) (b : json) : json :=
  match a with
  | Some v => if Json.truthy v then v else b
  | None => b
  end.

(** The failure branch [if (!retrieveRes.ok) { ... }], the same in both
    copies; it always throws. *)
Definition retrieval_failed {A} (retrieveRes : Response) (executionId : string) : Async A :=
  let* errorDetail := Response_text retrieveRes in
  let* errorDetail :=
    Async.try_catch
      (let* errorJson := JSON_parse_ errorDetail in
       let* error := Async.lift (get_property errorJson "error") in
       Async.ret (or_else error (JString errorDetail)))
      (fun _ => Async.ret (JString errorDetail)) in
  if res_status retrieveRes =? 404 then
    let* detail := Async.lift (template errorDetail) in
    Async.throw (new_McpError InternalError
      ("Failed to retrieve results for execution ID " +:+ executionId
       +:+ ": Result not found or expired (404). Detail: " +:+ detail))
  else
    let* detail := Async.lift (template errorDetail) in
    Async.throw (new_McpError InternalError
      ("Failed to retrieve results for execution ID " +:+ executionId
       +:+ ". Status: " +:+ JsNumber.toString (res_status retrieveRes)
       +:+ ". Detail: " +:+ detail)).

(** The [catch (err)] block of the handler, the same in both copies. *)
Definition tool_call_failed {A} (request : CallToolRequest) (err : Thrown) : Async A :=
  let errorMessage := "Tool call failed for " +:+ params_name request +:+ "." in
  let errorMessage :=
    match err with
    | McpError _ message => message
    | Error _ message => message
    | Value rendering => "An unknown error occurred: " +:+ rendering
    end in
  let* executionId := Async.get_executionId in
  let errorMessage :=
    if JsString.truthy executionId
    then errorMessage +:+ " (Make Execution ID: " +:+ executionId +:+ ")"
    else errorMessage in
  let mcpErrorCode :=
    match err with
    | McpError code _ => code
    | _ => InternalError
    end in
  Async.throw (new_McpError mcpErrorCode errorMessage).

Definition unknown_tool {A} (request : CallToolRequest) : Async A :=
  Async.throw (new_McpError InvalidRequest ("Unknown tool: " +:+ params_name request)).

Definition no_output : string := "(No output data received from results API)".

(** [s === v] for an optional string [s]. *)
Definition status_is (s : option string) (v : string) : bool :=
  match s with
  | Some x => String.eqb x v
  | None => false
  end.

(** [s || 'Unknown'] for an optional string. *)
Definition status_or (s : option string) (d : string) : string :=
  match s with
  | Some x => if JsString.truthy x then x else d
  | None => d
  end.

(** The handler of [src/index.ts]. *)
Module IndexTs.

Definition CallTool_handler (cfg : Config) (request : CallToolRequest)
  : Async CallToolResult :=
  if test_tool_name (params_name request) then
    let scenarioIdStr := JsString.substring 13 (params_name request) in
    Async.set_executionId "" ;;
    Async.try_catch
      (let* runResponse :=
         make_scenarios_run (JsNumber.parseInt scenarioIdStr) (params_arguments request) in
       Async.set_executionId (executionId runResponse) ;;
       let* executionId := Async.get_executionId in
       let makeInternalStatus := status runResponse in
       if negb (status_is makeInternalStatus "COMPLETED")
          && negb (status_is makeInternalStatus "OK")
       then
         Async.throw (new_McpError InternalError
           ("Make scenario execution failed internally with status: "
            +:+ status_or makeInternalStatus "Unknown"
            +:+ ". Execution ID: " +:+ executionId))
       else
         let retrieveUrl := resultsApiUrl cfg +:+ "/retrieve/" +:+ executionId in
         let* retrieveRes := fetch_GET retrieveUrl (resultsApiSecretKey cfg) in
         if negb (ok retrieveRes) then retrieval_failed retrieveRes executionId
         else
           let* retrievedData := Response_json retrieveRes in
           let* output := Async.lift (get_property retrievedData "output") in
           let outputContent :=
             match output with
             | Some v => Json.stringify v 2
             | None => no_output
             end in
           Async.ret {| toolResult := outputContent |})
      (tool_call_failed request)
  else unknown_tool request.

End IndexTs.

(** The handler of the second copy of [index.ts], [src/unnamed/part_000]. *)
Module Part000.

Definition CallTool_handler (cfg : Config) (request : CallToolRequest)
  : Async CallToolResult :=
  if test_tool_name (params_name request) then
    let scenarioIdStr := JsString.substring 13 (params_name request) in
    Async.set_executionId "" ;;
    Async.try_catch
      (let* runResponse :=
         make_scenarios_run (JsNumber.parseInt scenarioIdStr) (params_arguments request) in
       Async.set_executionId (executionId runResponse) ;;
       let* executionId := Async.get_executionId in
       let retrieveUrl := resultsApiUrl cfg +:+ "/retrieve/" +:+ executionId in
       let* retrieveRes := fetch_GET retrieveUrl (resultsApiSecretKey cfg) in
       if negb (ok retrieveRes) then retrieval_failed retrieveRes executionId
       else
         let* retrievedData := Response_json retrieveRes in
         let* output := Async.lift (get_property retrievedData "output") in
         let outputContent :=
           match output with
           | None | Some JNull => no_output
           | Some (JString s) => s
           | Some v => Json.stringify v 2
           end in
         Async.ret {| toolResult := outputContent |})
      (tool_call_failed request)
  else unknown_tool request.

End Part000.

(** ** The schema remapper *)

Module Utils.

(** Modelled from the spec: the error of the remapper, which names the
    node it could not map (its name and its type tag). *)
Inductive UnsupportedTypeError : Type :=
| Unsupported (node_name node_type : string).

(** Modelled from the spec: the primitive type tags and the schema type
    each maps to. *)
Definition primitive (tag : string) : option string :=
  if String.eqb tag "text" then Some "string"
  else if String.eqb tag "number" then Some "number"
  else if String.eqb tag "boolean" then Some "boolean"
  else None.

(** Modelled from the spec: the composite type tags. *)
Definition composite (tag : string) : bool :=
  String.eqb tag "array" || String.eqb tag "collection".

(** Modelled from the spec: the recognized vocabulary of type tags. *)
Definition recognized (tag : string) : bool :=
  composite tag || bool_decide (is_Some (primitive tag)).

(** Modelled from the spec: labels and descriptions, passed through where
    present. *)
Definition metadata (d : Descriptor) : list (string * json) :=
  match d_label d with Some l => [("label", JString l)] | None => [] end ++
  match d_help d with Some h => [("description", JString h)] | None => [] end.

(** First failure of a sequence of results, or all the values. *)
Fixpoint sequence {E A} (l : list (E + A)) : E + list A :=
  match l with
  | [] => inr []
  | inl e :: _ => inl e
  | inr a :: rest =>
    match sequence rest with
    | inl e => inl e
    | inr as_ => inr (a :: as_)
    end
  end.

(** Modelled from the spec: [remap] is defined in [utils.ts], which is
    not among the sources.  Following the component design of the Schema
    Remapper: [text], [number] and [boolean] map to the schema types
    [string], [number] and [boolean]; [array] maps to an array schema
    whose [items] are derived from the children ([spec]): the schema of
    the child when there is one, the sequence of the children's schemas
    otherwise; [collection] maps to an object schema whose [properties]
    are the children's schemas under their names, in order, with the
    names of the children marked required in [required]; labels and
    descriptions are passed through; any other tag fails with an
    [UnsupportedTypeError] naming the node. *)
Fixpoint remap (d : Descriptor) : UnsupportedTypeError + json :=
  let '(mkDescriptor node_name tag spec _ _ _) := d in
  if String.eqb tag "collection" then
    match sequence (map remap spec) with
    | inl e => inl e
    | inr schemas =>
      inr (JObject
             ([("type", JString "object")] ++ metadata d ++
              [("properties", JObject (zip (map d_name spec) schemas));
               ("required", JArray (map (fun c => JString (d_name c))
                                      (filter (fun c => d_required c = true) spec)))]))
    end
  else if String.eqb tag "array" then
    match sequence (map remap spec) with
    | inl e => inl e
    | inr schemas =>
      let items := match schemas with [one] => one | _ => JArray schemas end in
      inr (JObject ([("type", JString "array")] ++ metadata d ++ [("items", items)]))
    end
  else
    match primitive tag with
    | Some t => inr (JObject ([("type", JString t)] ++ metadata d))
    | None => inl (Unsupported node_name tag)
    end.

(** Modelled from the spec: the remapper as the list-tools handler calls
    it, the error being thrown as an [Error] named [UnsupportedTypeError];
    the text of its message is not specified. *)
Definition remap_or_throw (d : Descriptor) : Completion json :=
  match remap d with
  | inr schema => Return schema
  | inl (Unsupported node_name tag) =>
    Throw (Error "UnsupportedTypeError"
             ("Unsupported type " +:+ tag +:+ " of " +:+ node_name))
  end.

(** [x] is [root] or a node below it, reached through the children of
    composite nodes. *)
Inductive subnode (x : Descriptor) : Descriptor -> Prop :=
| subnode_refl : subnode x x
| subnode_child parent child :
    composite (d_type parent) = true ->
    child ∈ d_spec parent ->
    subnode x child ->
    subnode x parent.

End Utils.

(** ** Vocabulary of the statements *)

Definition on_demand (scenario : Scenario) : Prop :=
  type (scheduling scenario) = "on-demand".

Global Instance on_demand_dec scenario : Decision (on_demand scenario).
Proof. unfold on_demand. apply _. Defined.

(** Outcome of fetching the interface of a scenario and remapping it. *)
Definition interface_schema (remap : Descriptor -> Completion json) (w : World)
    (scenarioId : Z) : Completion json :=
  match scenarios_interface w scenarioId with
  | Return iface =>
    remap (mkDescriptor "wrapper" "collection" (default [] (input iface)) false None None)
  | Throw e => Throw e
  end.

Definition succeeds (remap : Descriptor -> Completion json) (w : World)
    (scenarioId : Z) : bool :=
  match interface_schema remap w scenarioId with
  | Return _ => true
  | Throw _ => false
  end.

(** The tool of a scenario, if its interface is fetched and remapped. *)
Definition tool_for (remap : Descriptor -> Completion json) (w : World)
    (scenario : Scenario) : option Tool :=
  match interface_schema remap w (id scenario) with
  | Return schema =>
    Some {| tool_name := toolName (id scenario);
            tool_description := toolDescription scenario;
            inputSchema := schema |}
  | Throw _ => None
  end.

(** The two copies of the call-tool handler. *)
Inductive Variant : Type := index_ts | part_000.

Definition CallTool_handler (v : Variant) : Config -> CallToolRequest -> Async CallToolResult :=
  match v with
  | index_ts => IndexTs.CallTool_handler
  | part_000 => Part000.CallTool_handler
  end.

(** Whether copy [v] goes on to the result fetch after the trigger
    answered [runResponse]. *)
Definition proceeds_to_fetch (v : Variant) (runResponse : ScenarioRunServerResponse) : bool :=
  match v with
  | index_ts =>
    status_is (status runResponse) "COMPLETED" || status_is (status runResponse) "OK"
  | part_000 => true
  end.

(** The trigger call and the result fetch of a request. *)
Definition scenarioIdStr (request : CallToolRequest) : string :=
  JsString.substring 13 (params_name request).

Definition trigger (request : CallToolRequest) : Call :=
  CallRun (JsNumber.parseInt (scenarioIdStr request)) (params_arguments request).

Definition retrieveUrl (cfg : Config) (executionId : string) : string :=
  resultsApiUrl cfg +:+ "/retrieve/" +:+ executionId.

Definition retrieve (cfg : Config) (executionId : string) : Call :=
  CallFetch (retrieveUrl cfg executionId) (resultsApiSecretKey cfg).

(** The error detail of a failed retrieval: the [error] member of a JSON
    body when it is truthy, the body text otherwise. *)
Definition error_detail (w : World) (res : Response) : json :=
  match JSON_parse w (res_body res) with
  | Return errorJson =>
    match get_property errorJson "error" with
    | Return error => or_else error (JString (res_body res))
    | Throw _ => JString (res_body res)
    end
  | Throw _ => JString (res_body res)
  end.


(** The text by which a thrown value is reported. *)
Definition cause_text (e : Thrown) : string :=
  match e with
  | McpError _ message | Error _ message => message
  | Value rendering => rendering
  end.

(** ** Sample collaborators

    Concrete answers on which the statements below are evaluated. *)

Module Sample.

Definition cfg : Config :=
  {| teamId := Int 7;
     resultsApiUrl := "https://results.example";
     resultsApiSecretKey := "secret" |}.

Definition scenario_A : Scenario :=
  {| id := 1; name := "A"; description := Some "first";
     scheduling := {| type := "on-demand" |} |}.
Definition scenario_B : Scenario :=
  {| id := 2; name := "B"; description := None;
     scheduling := {| type := "scheduled" |} |}.
Definition scenario_C : Scenario :=
  {| id := 3; name := "C"; description := None;
     scheduling := {| type := "on-demand" |} |}.

Definition network_error : Thrown := Error "Error" "Network error".
Definition syntax_error : Thrown := Error "SyntaxError" "Unexpected token".

(** A world in which nothing answers. *)
Definition offline : World :=
  {| scenarios_list := fun _ => Throw network_error;
     scenarios_interface := fun _ => Throw network_error;
     scenarios_run := fun _ _ => Throw network_error;
     fetch := fun _ _ => Throw network_error;
     JSON_parse := fun _ => Throw syntax_error |}.

(** Scenarios A, B and C are listed; the interface of the scenarios in
    [unreachable] cannot be fetched, the others declare one text input. *)
Definition catalog (unreachable : list Z) : World :=
  {| scenarios_list := fun _ => Return [scenario_A; scenario_B; scenario_C];
     scenarios_interface := fun scenarioId =>
       if bool_decide (scenarioId ∈ unreachable) then Throw network_error
       else Return {| input := Some [mkDescriptor "city" "text" [] true None None] |};
     scenarios_run := scenarios_run offline;
     fetch := fetch offline;
     JSON_parse := JSON_parse offline |}.

(** The trigger answers with execution id [exec-123] and status
    [run_status]; the results service answers [status_code] with the
    JSON document [body]. *)
Definition results (run_status : option string) (status_code : Z) (body : json)
  : World :=
  {| scenarios_list := scenarios_list offline;
     scenarios_interface := scenarios_interface offline;
     scenarios_run := fun _ _ =>
       Return {| executionId := "exec-123"; status := run_status |};
     fetch := fun _ _ =>
       Return {| res_status := status_code; res_body := Json.stringify body 0 |};
     JSON_parse := fun text =>
       if String.eqb text (Json.stringify body 0) then Return body
       else Throw syntax_error |}.

Definition request (tool : string) : CallToolRequest :=
  {| params_name := tool; params_arguments := Some (JObject []) |}.

Definition run_response (run_status : option string) : ScenarioRunServerResponse :=
  {| executionId := "exec-123"; status := run_status |}.

Definition response (status_code : Z) (body : json) : Response :=
  {| res_status := status_code; res_body := Json.stringify body 0 |}.

End Sample.

(** ** Start-up

    The top level of [index.ts] before the handlers are registered: the
    five environment variables are checked in turn, each missing one
    being fatal ([console.error] then [process.exit(1)]); the team
    identifier is parsed and the base URL of the results service loses a
    trailing slash.  The second copy also refuses a team identifier that
    does not parse. *)

Module Startup.

(** What [new Make(apiKey, zone)] is built from, and the values the
    handlers read. *)
Record Settings : Type := {
  apiKey : string;
  zone : string;
  config : Config;
}.

(** How the top level ends: [process.exit(1)] after [message] was written
    to the console, or the handlers are registered with the settings. *)
Inductive Boot : Type :=
| Exit (message : string)
| Ready (settings : Settings).

(** [!process.env.NAME], where [env] is [process.env]: the variable is not
    set, or is empty. *)
Definition unset (env : gmap string string) (name : string) : bool :=
  match env !! name with
  | Some value => negb (JsString.truthy value)
  | None => true
  end.

(** [process.env.NAME] once it is known to be set. *)
Definition get (env : gmap string string) (name : string) : string := default "" (env !! name).

Definition please_provide (name : string) : string :=
  "FATAL: Please provide " +:+ name +:+ " environment variable.".

(** [s.replace(/\/$/, '')]: the pattern matches a slash at the very end of
    [s] only, so at most one character is removed. *)
Fixpoint remove_trailing_slash (s : string) : string :=
  match s with
  | EmptyString => EmptyString
  | String c EmptyString => if Ascii.eqb c "/" then EmptyString else s
  | String c s' => String c (remove_trailing_slash s')
  end.

(** The message of the second copy for a team identifier that is not a
    number. *)
Definition team_not_a_number (value : string) : string :=
  "FATAL: MAKE_TEAM environment variable (" +:+ String Json.dquote value
  +:+ String Json.dquote ") could not be parsed into a valid number.".

(** [isNaN(teamId)]. *)
Definition isNaN (n : number) : bool :=
  match n with
  | NaN => true
  | Int _ => false
  end.

(** The top level of copy [v]. *)
Definition startup (v : Variant) (env : gmap string string) : Boot :=
  if unset env "MAKE_API_KEY" then Exit (please_provide "MAKE_API_KEY")
  else if unset env "MAKE_ZONE" then Exit (please_provide "MAKE_ZONE")
  else if unset env "MAKE_TEAM" then Exit (please_provide "MAKE_TEAM")
  else if unset env "RESULTS_API_URL" then Exit (please_provide "RESULTS_API_URL")
  else if unset env "RESULTS_API_SECRET_KEY"
  then Exit (please_provide "RESULTS_API_SECRET_KEY")
  else
    let teamId := JsNumber.parseInt (get env "MAKE_TEAM") in
    if match v with index_ts => false | part_000 => isNaN teamId end
    then Exit (team_not_a_number (get env "MAKE_TEAM"))
    else
      let resultsApiUrl := remove_trailing_slash (get env "RESULTS_API_URL") in
      let resultsApiSecretKey := get env "RESULTS_API_SECRET_KEY" in
      Ready {| apiKey := get env "MAKE_API_KEY";
               zone := get env "MAKE_ZONE";
               config := {| teamId := teamId;
                            resultsApiUrl := resultsApiUrl;
                            resultsApiSecretKey := resultsApiSecretKey |} |}.

End Startup.

(** ** The Smithery start command

    [commandFunction] of [smithery.yaml]: the command that starts the
    server for a configuration, with the environment it passes. *)

Module Smithery.

Record SmitheryConfig : Type := {
  makeApiKey : string;
  makeZone : string;
  makeTeamId : string;
}.

Record Command : Type := {
  command : string;
  args : list string;
  env : gmap string string;
}.

Definition commandFunction (config : SmitheryConfig) : Command :=
  {| command := "node";
     args := ["build/index.js"];
     env := <["MAKE_API_KEY" := makeApiKey config]>
              (<["MAKE_ZONE" := makeZone config]>
                 (<["MAKE_TEAM" := makeTeamId config]> ∅)) |}.

End Smithery.

(** ** More vocabulary of the statements *)

(** What the [catch] block of the call-tool handler throws for [err] when
    the local [executionId] holds [executionId]. *)
Definition execution_suffix (executionId : string) : string :=
  if JsString.truthy executionId
  then " (Make Execution ID: " +:+ executionId +:+ ")"
  else "".

Definition reported_code (err : Thrown) : ErrorCode :=
  match err with
  | McpError code _ => code
  | _ => InternalError
  end.

Definition reported_text (err : Thrown) : string :=
  match err with
  | McpError _ message | Error _ message => message
  | Value rendering => "An unknown error occurred: " +:+ rendering
  end.

Definition reported (executionId : string) (err : Thrown) : Thrown :=
  new_McpError (reported_code err)
    (reported_text err +:+ execution_suffix executionId).

(** What [src/index.ts] throws when the status of the trigger answer is
    neither [COMPLETED] nor [OK]. *)
Definition gate_error (runResponse : ScenarioRunServerResponse) : Thrown :=
  new_McpError InternalError
    ("Make scenario execution failed internally with status: "
     +:+ status_or (status runResponse) "Unknown"
     +:+ ". Execution ID: " +:+ executionId runResponse).

(** What the failure branch of the retrieval throws for the answer [res]:
    the error of the interpolation when the detail does not convert to
    text, the error built from the status and the detail otherwise. *)
Definition retrieval_error (w : World) (res : Response) (executionId : string)
  : Thrown :=
  match template (error_detail w res) with
  | Throw e => e
  | Return detail =>
    new_McpError InternalError
      ("Failed to retrieve results for execution ID " +:+ executionId
       +:+ (if res_status res =? 404
            then ": Result not found or expired (404). Detail: " +:+ detail
            else ". Status: " +:+ JsNumber.toString (res_status res)
                 +:+ ". Detail: " +:+ detail))
  end.

(** The text copy [v] returns for the [output] member of the body. *)
Definition normalized (v : Variant) (output : option json) : string :=
  match v, output with
  | _, None => no_output
  | index_ts, Some x => Json.stringify x 2
  | part_000, Some JNull => no_output
  | part_000, Some (JString s) => s
  | part_000, Some x => Json.stringify x 2
  end.

(** How copy [v] ends on a success answer [res] of the results service. *)
Definition retrieved (v : Variant) (w : World) (res : Response)
    (executionId : string) : Completion CallToolResult :=
  match JSON_parse w (res_body res) with
  | Throw e => Throw (reported executionId e)
  | Return retrievedData =>
    match get_property retrievedData "output" with
    | Throw e => Throw (reported executionId e)
    | Return output => Return {| toolResult := normalized v output |}
    end
  end.

(** The variables the top level requires, in the order it checks them. *)
Definition required_variables : list string :=
  ["MAKE_API_KEY"; "MAKE_ZONE"; "MAKE_TEAM"; "RESULTS_API_URL";
   "RESULTS_API_SECRET_KEY"].

(** [s] ends with a slash. *)
Definition ends_with_slash (s : string) : Prop := exists t, s = t +:+ "/".

(** ** More sample collaborators *)

Module Cases.

(** The trigger answers with execution id [exec-123]; the results service
    cannot be reached. *)
Definition results_unreachable : World :=
  {| scenarios_list := scenarios_list Sample.offline;
     scenarios_interface := scenarios_interface Sample.offline;
     scenarios_run := fun _ _ => Return (Sample.run_response (Some "COMPLETED"));
     fetch := fetch Sample.offline;
     JSON_parse := JSON_parse Sample.offline |}.

(** The trigger answers with execution id [exec-123]; the results service
    answers [status_code] with the text [text], which is no JSON. *)
Definition plain_text (status_code : Z) (text : string) : World :=
  {| scenarios_list := scenarios_list Sample.offline;
     scenarios_interface := scenarios_interface Sample.offline;
     scenarios_run := fun _ _ => Return (Sample.run_response (Some "COMPLETED"));
     fetch := fun _ _ => Return {| res_status := status_code; res_body := text |};
     JSON_parse := fun _ => Throw Sample.syntax_error |}.

(** A complete environment. *)
Definition environment : gmap string string :=
  <["MAKE_API_KEY" := "key"]>
    (<["MAKE_ZONE" := "eu2.make.com"]>
       (<["MAKE_TEAM" := "7"]>
          (<["RESULTS_API_URL" := "https://results.example/"]>
             (<["RESULTS_API_SECRET_KEY" := "secret"]> ∅)))).

(** The variables of the results service alone. *)
Definition results_environment : gmap string string :=
  <["RESULTS_API_URL" := "https://results.example/"]>
    (<["RESULTS_API_SECRET_KEY" := "secret"]> ∅).

Definition smithery_config : Smithery.SmitheryConfig :=
  {| Smithery.makeApiKey := "key";
     Smithery.makeZone := "eu2.make.com";
     Smithery.makeTeamId := "7" |}.

End Cases.

(** * Properties *)

(** ** The serializer and the remapper on examples *)

(** [JSON.stringify({x: 1}, null, 2)] is the three lines
    [{], [  "x": 1], [}]. *)
Example stringify_object :
  let nl := String (ascii_of_N 10) "" in
  let q := String Json.dquote "" in
  Json.stringify (JObject [("x", JNumber "1")]) 2
  = "{" +:+ nl +:+ "  " +:+ q +:+ "x" +:+ q +:+ ": 1" +:+ nl +:+ "}".
Proof. reflexivity. Qed.

Example remap_wrapper :
  Utils.remap (mkDescriptor "wrapper" "collection"
                 [mkDescriptor "city" "text" [] true (Some "City") None;
                  mkDescriptor "days" "number" [] false None None] false None None)
  = inr (JObject
           [("type", JString "object");
            ("properties",
             JObject [("city", JObject [("type", JString "string"); ("label", JString "City")]);
                      ("days", JObject [("type", JString "number")])]);
            ("required", JArray [JString "city"])]).
Proof. reflexivity. Qed.

Example remap_unknown_tag :
  Utils.remap (mkDescriptor "wrapper" "collection"
                 [mkDescriptor "when" "date" [] false None None] false None None)
  = inl (Utils.Unsupported "when" "date").
Proof. reflexivity. Qed.

(** ** Strings *)

Section StringFacts.

Implicit Types s sub pre post : string.

Lemma append_nil s : "" +:+ s = s.
Proof. reflexivity. Qed.

Lemma append_cons c s1 s2 : String c s1 +:+ s2 = String c (s1 +:+ s2).
Proof. reflexivity. Qed.

Lemma append_assoc s1 s2 s3 : (s1 +:+ s2) +:+ s3 = s1 +:+ (s2 +:+ s3).
Proof.
  induction s1 as [|c s1 IH]; rewrite ?append_nil, ?append_cons; congruence.
Qed.

Lemma append_empty_r s : s +:+ "" = s.
Proof.
  induction s as [|c s IH]; rewrite ?append_nil, ?append_cons; congruence.
Qed.

Lemma append_length s1 s2 :
  String.length (s1 +:+ s2) = (String.length s1 + String.length s2)%nat.
Proof.
  induction s1 as [|c s1 IH]; rewrite ?append_nil, ?append_cons; simpl; congruence.
Qed.

Lemma startsWith_spec s p :
  JsString.startsWith s p = true <-> exists post, s = p +:+ post.
Proof.
  unfold JsString.startsWith. revert s.
  induction p as [|a p IH]; intros s.
  - destruct s; simpl; split; eauto.
  - destruct s as [|b s]; simpl.
    + split; [done | intros [post ?]; done].
    + setoid_rewrite append_cons.
      destruct (ascii_dec a b) as [->|Hne].
      * rewrite IH. split; intros [post Hpost]; exists post; congruence.
      * split; [done | intros [post ?]; congruence].
Qed.

Lemma includes_spec s sub :
  JsString.includes s sub = true <-> exists pre post, s = pre +:+ sub +:+ post.
Proof.
  induction s as [|c s IH]; cbn [JsString.includes].
  - rewrite orb_false_r, startsWith_spec. split.
    + intros [post ?]. by exists "", post.
    + intros [pre [post Heq]]. destruct pre; [by exists post | done].
  - rewrite orb_true_iff, startsWith_spec, IH. split.
    + intros [[post ?]|[pre [post ->]]]; [by exists "", post|].
      by exists (String c pre), post.
    + intros [[|c' pre] [post Heq]]; [left; by exists post|].
      right. exists pre, post. rewrite append_cons in Heq. congruence.
Qed.

Lemma includes_here sub post : JsString.includes (sub +:+ post) sub = true.
Proof. apply includes_spec. by exists "", post. Qed.

Lemma includes_app_l s t sub :
  JsString.includes s sub = true -> JsString.includes (s +:+ t) sub = true.
Proof.
  rewrite !includes_spec. intros [pre [post ->]].
  exists pre, (post +:+ t). by rewrite !append_assoc.
Qed.

Lemma includes_app_r s t sub :
  JsString.includes t sub = true -> JsString.includes (s +:+ t) sub = true.
Proof.
  rewrite !includes_spec. intros [pre [post ->]].
  exists (s +:+ pre), post. by rewrite !append_assoc.
Qed.

Lemma includes_refl s : JsString.includes s s = true.
Proof. apply includes_spec. exists "", "". by rewrite append_empty_r. Qed.

Lemma substring_append p s : JsString.substring (String.length p) (p +:+ s) = s.
Proof.
  induction p as [|c p IH]; rewrite ?append_nil, ?append_cons; simpl;
    [by destruct s | done].
Qed.

End StringFacts.

Lemma includes_empty s : JsString.includes s "" = true.
Proof. apply includes_spec. by exists "", s. Qed.

(** Finds [sub] among the pieces of a message built with [+:+]. *)
Ltac find_included :=
  first
    [ apply includes_refl
    | apply includes_empty
    | apply includes_here
    | apply includes_app_l; find_included
    | apply includes_app_r; find_included
    | vm_compute; reflexivity ].

(** ** Discovery *)

Section Discovery.

Variable remap : Descriptor -> Completion json.
Variable cfg : Config.
Variable w : World.

Implicit Types (s : Scenario) (ss : list Scenario) (st : State).

Lemma toolName_inj : Inj (=) (=) toolName.
Proof.
  intros a b Heq. unfold toolName, JsNumber.toString in Heq.
  by apply (inj pretty), (inj (String.append "run_scenario_")).
Qed.

Lemma scenarioTool_run s st :
  scenarioTool remap s w st
  = ({| calls := calls st ++ [CallInterface (id s)];
        executionId_var := executionId_var st |},
     Return (tool_for remap w s)).
Proof.
  unfold scenarioTool, tool_for, interface_schema, Async.try_catch, Async.bind,
    make_scenarios_interface, Async.call, Async.lift, Async.ret.
  destruct (scenarios_interface w (id s)) as [iface|e]; [|done].
  by destruct (remap _).
Qed.

Lemma all_scenarioTool ss st :
  Async.all (map (scenarioTool remap) ss) w st
  = ({| calls := calls st ++ map CallInterface (map id ss);
        executionId_var := executionId_var st |},
     Return (map (tool_for remap w) ss)).
Proof.
  revert st. induction ss as [|s ss IH]; intros st.
  - destruct st. simpl. by rewrite app_nil_r.
  - cbn [map Async.all]. rewrite scenarioTool_run, IH. simpl.
    by rewrite <- app_assoc.
Qed.

Lemma omap_map_id {A B} (f : A -> option B) (l : list A) :
  omap (fun x => x) (map f l) = omap f l.
Proof.
  induction l as [|a l IH]; [done|].
  change (omap (fun x => x) (map f (a :: l)))
    with (match f a with
          | Some b => b :: omap (fun x => x) (map f l)
          | None => omap (fun x => x) (map f l)
          end).
  rewrite IH. reflexivity.
Qed.

(** What the handler computes once the listing has been answered. *)
Lemma ListTools_listed ss :
  scenarios_list w (teamId cfg) = Return ss ->
  ListTools_handler remap cfg w initial
  = ({| calls := CallList (teamId cfg)
                 :: map CallInterface (map id (filter on_demand ss));
        executionId_var := "" |},
     Return (omap (tool_for remap w) (filter on_demand ss))).
Proof.
  intros Hlist.
  unfold ListTools_handler, Async.try_catch, Async.bind, make_scenarios_list,
    Async.call, Async.ret.
  rewrite Hlist. fold on_demand.
  change (filter (fun scenario => type (scheduling scenario) = "on-demand") ss)
    with (filter on_demand ss).
  rewrite all_scenarioTool. simpl. by rewrite omap_map_id.
Qed.

Lemma tool_for_Some s t :
  tool_for remap w s = Some t <->
  interface_schema remap w (id s) = Return (inputSchema t) /\
  tool_name t = toolName (id s) /\ tool_description t = toolDescription s.
Proof.
  unfold tool_for. destruct (interface_schema remap w (id s)) as [schema|e].
  - split.
    + by intros [= <-].
    + intros ([= ->] & ? & ?). destruct t; simpl in *. by subst.
  - split; [done | by intros [? _]].
Qed.

(** C2: whenever the scenarios are listed, the handler returns one tool
    per scenario that is on-demand and whose interface is fetched and
    remapped, position by position in the order of the listing; an
    interface is requested for the on-demand scenarios only. *)
Theorem list_tools_on_demand_in_order ss :
  scenarios_list w (teamId cfg) = Return ss ->
  let selected :=
    filter (fun s => type (scheduling s) = "on-demand"
                     /\ succeeds remap w (id s) = true) ss in
  exists tools st,
    ListTools_handler remap cfg w initial = (st, Return tools) /\
    Forall2 (fun s t =>
               tool_name t = toolName (id s) /\
               tool_description t = toolDescription s /\
               interface_schema remap w (id s) = Return (inputSchema t))
            selected tools /\
    calls st
    = CallList (teamId cfg)
      :: map CallInterface
           (map id (filter (fun s => type (scheduling s) = "on-demand") ss)).
Proof.
  intros Hlist selected. eexists _, _. split; [by apply ListTools_listed|].
  split; [|done]. subst selected. clear Hlist.
  induction ss as [|s ss IH]; [constructor|].
  rewrite !filter_cons. unfold on_demand at 1.
  destruct (decide (type (scheduling s) = "on-demand")) as [Hon|Hoff].
  - simpl. destruct (tool_for remap w s) as [t|] eqn:Htool.
    + apply tool_for_Some in Htool as (Hschema & Hname & Hdescr).
      rewrite decide_True by (split; [done | unfold succeeds; by rewrite Hschema]).
      constructor; [done | apply IH].
    + unfold tool_for in Htool.
      destruct (interface_schema remap w (id s)) eqn:Hschema; [done|].
      rewrite decide_False
        by (intros [_ Hs]; unfold succeeds in Hs; by rewrite Hschema in Hs).
      apply IH.
  - rewrite decide_False by (by intros [? _]). apply IH.
Qed.


(** C4: whenever the scenarios are listed, the handler returns a tool
    list (it does not throw); an on-demand scenario whose interface
    fetch or remap fails has no tool in it, and every on-demand scenario
    whose fetch and remap succeed has its tool in it. *)
Theorem list_tools_isolates_failures ss :
  scenarios_list w (teamId cfg) = Return ss ->
  exists tools st,
    ListTools_handler remap cfg w initial = (st, Return tools) /\
    forall s, s ∈ ss -> type (scheduling s) = "on-demand" ->
      match interface_schema remap w (id s) with
      | Throw _ => forall t, t ∈ tools -> tool_name t <> toolName (id s)
      | Return schema =>
        {| tool_name := toolName (id s);
           tool_description := toolDescription s;
           inputSchema := schema |} ∈ tools
      end.
Proof.
  intros Hlist. eexists _, _. split; [by apply ListTools_listed|].
  intros s Hin Hon.
  destruct (interface_schema remap w (id s)) as [schema|e] eqn:Hschema.
  - apply list_elem_of_omap. exists s. split.
    + by apply list_elem_of_filter.
    + unfold tool_for. by rewrite Hschema.
  - intros t [s' [_ Htool]]%list_elem_of_omap Hname.
    apply tool_for_Some in Htool as (Hschema' & Hname' & _).
    rewrite Hname' in Hname. apply toolName_inj in Hname.
    congruence.
Qed.

(** C7: when listing the scenarios throws, the handler throws an
    [McpError] with code [InternalError] whose message carries the
    rendering of the cause, after the listing call alone; no tool list
    is returned. *)
Theorem list_tools_fails_when_listing_fails e :
  scenarios_list w (teamId cfg) = Throw e ->
  ListTools_handler remap cfg w initial
  = ({| calls := [CallList (teamId cfg)]; executionId_var := "" |},
     Throw (new_McpError InternalError
              ("Failed to list Make scenarios: " +:+ String_ e))) /\
  exists message,
    new_McpError InternalError ("Failed to list Make scenarios: " +:+ String_ e)
    = McpError InternalError message /\
    JsString.includes message (String_ e) = true.
Proof.
  intros Hlist. split.
  - unfold ListTools_handler, Async.try_catch, Async.bind, make_scenarios_list,
      Async.call, Async.throw.
    by rewrite Hlist.
  - eexists. split; [reflexivity|]. find_included.
Qed.

End Discovery.

(** ** Invocation *)

(** Runs the handler monad symbolically. *)
Ltac async_unfold :=
  unfold unknown_tool, tool_call_failed, retrieval_failed, initial;
  unfold make_scenarios_run, fetch_GET, Response_text, Response_json, JSON_parse_;
  unfold Async.bind, Async.try_catch, Async.throw, Async.ret, Async.lift,
    Async.call, Async.get_executionId, Async.set_executionId;
  cbv beta zeta; cbn [calls executionId_var app].

Ltac unfold_handler v :=
  destruct v;
  unfold CallTool_handler, IndexTs.CallTool_handler, Part000.CallTool_handler.

Lemma status_is_false (s : option string) (v : string) :
  s <> Some v -> status_is s v = false.
Proof.
  destruct s as [x|]; [|done]. intros Hne. simpl.
  apply String.eqb_neq. congruence.
Qed.

(** The test of the handler accepts the names made of [run_scenario_]
    followed by one decimal digit or more. *)
Lemma test_tool_name_spec (name : string) :
  test_tool_name name = true <->
  exists digits, name = "run_scenario_" +:+ digits /\ digits <> ""
                 /\ JsNumber.all_digits digits = true.
Proof.
  unfold test_tool_name. rewrite !andb_true_iff, startsWith_spec. split.
  - intros [[digits ->] [Hnonempty Hdigits]].
    change 13%nat with (String.length "run_scenario_") in *.
    rewrite substring_append in *.
    exists digits. split; [done|]. split; [|done]. by intros ->.
  - intros (digits & -> & Hnonempty & Hdigits).
    change 13%nat with (String.length "run_scenario_").
    rewrite substring_append. split; [by eexists|]. split; [|done].
    by destruct digits.
Qed.

Section Invocation.

Variable cfg : Config.
Variable request : CallToolRequest.
Variable w : World.

(** C5: a name that does not match [run_scenario_] followed by digits
    makes either copy of the handler throw an [McpError] with code
    [InvalidRequest] whose message names the tool, without issuing any
    call. *)
Theorem call_tool_unknown_name v :
  test_tool_name (params_name request) = false ->
  CallTool_handler v cfg request w initial
  = ({| calls := []; executionId_var := "" |},
     Throw (new_McpError InvalidRequest ("Unknown tool: " +:+ params_name request))) /\
  exists message,
    new_McpError InvalidRequest ("Unknown tool: " +:+ params_name request)
    = McpError InvalidRequest message /\
    JsString.includes message (params_name request) = true.
Proof.
  intros Htest. split.
  - unfold_handler v; rewrite Htest; by async_unfold.
  - eexists. split; [reflexivity|]. find_included.
Qed.

(** C6, as amended: when the trigger call throws, either copy of the
    handler throws, after that call alone, an [McpError] whose message is
    the SDK prefix followed by the text of the cause (the message of an
    [Error], the rendering of any other value after the words
    [An unknown error occurred]); its code is [InternalError] unless the
    cause is itself an [McpError], whose code it keeps. *)
Theorem call_tool_trigger_fails v e :
  test_tool_name (params_name request) = true ->
  scenarios_run w (JsNumber.parseInt (scenarioIdStr request))
    (params_arguments request) = Throw e ->
  let code := match e with McpError code _ => code | _ => InternalError end in
  exists message,
    CallTool_handler v cfg request w initial
    = ({| calls := [trigger request]; executionId_var := "" |},
       Throw (McpError code message)) /\
    message = "MCP error " +:+ JsNumber.toString code +:+ ": " +:+
              match e with
              | Value _ => "An unknown error occurred: " +:+ cause_text e
              | _ => cause_text e
              end /\
    JsString.includes message (cause_text e) = true.
Proof.
  intros Htest Hrun code. unfold scenarioIdStr in Hrun. eexists. split; [|split].
  - unfold_handler v; rewrite Htest; async_unfold; rewrite Hrun;
      cbn [calls executionId_var JsString.truthy]; reflexivity.
  - by destruct e.
  - destruct e; cbn [cause_text]; find_included.
Qed.

(** C10: in [src/index.ts], a trigger answer whose status is neither
    [COMPLETED] nor [OK] (or is missing) makes the handler throw an
    [McpError] with code [InternalError] whose message carries the status
    (or [Unknown]) and the execution id, the trigger being the only call
    issued; the other copy issues the result fetch after every answered
    trigger. *)
Theorem call_tool_status_gate runResponse :
  test_tool_name (params_name request) = true ->
  scenarios_run w (JsNumber.parseInt (scenarioIdStr request))
    (params_arguments request) = Return runResponse ->
  (status runResponse <> Some "COMPLETED" ->
   status runResponse <> Some "OK" ->
   exists message,
     IndexTs.CallTool_handler cfg request w initial
     = ({| calls := [trigger request];
           executionId_var := executionId runResponse |},
        Throw (McpError InternalError message)) /\
     JsString.includes message (status_or (status runResponse) "Unknown") = true /\
     (forall s, status runResponse = Some s -> JsString.includes message s = true) /\
     JsString.includes message (executionId runResponse) = true) /\
  (exists st outcome,
     Part000.CallTool_handler cfg request w initial = (st, outcome) /\
     calls st = [trigger request; retrieve cfg (executionId runResponse)]).
Proof.
  intros Htest Hrun. unfold scenarioIdStr in Hrun. split.
  - intros Hcompleted Hok. eexists. split; [|split; [|split]].
    + unfold IndexTs.CallTool_handler. rewrite Htest. async_unfold.
      rewrite Hrun. cbn [calls executionId_var].
      rewrite !status_is_false by done. cbn [negb andb].
      reflexivity.
    + destruct (JsString.truthy _); find_included.
    + intros s Hs. rewrite Hs. cbn [status_or].
      destruct s as [|c s]; [apply includes_empty|].
      cbn [JsString.truthy]. destruct (JsString.truthy _); find_included.
    + destruct (JsString.truthy _); find_included.
  - unfold Part000.CallTool_handler. rewrite Htest. async_unfold.
    rewrite Hrun. cbn [calls executionId_var].
    repeat case_match; simplify_eq; eexists _, _; split; reflexivity.
Qed.




End Invocation.

(** ** Normalization of the output *)

Lemma escape_length s : (String.length s <= String.length (Json.escape s))%nat.
Proof.
  induction s as [|c s IH]; [done|].
  cbn [Json.escape]. rewrite append_length.
  assert (1 <= String.length (Json.escape_char c))%nat.
  { unfold Json.escape_char, Json.unicode_escape.
    repeat case_match; rewrite ?append_cons; simpl; lia. }
  simpl. lia.
Qed.

(** A quoted string is never the string itself. *)
Lemma quote_not_verbatim s : Json.quote s <> s.
Proof.
  intros Heq. apply (f_equal String.length) in Heq.
  unfold Json.quote in Heq. cbn [String.length] in Heq.
  rewrite append_length in Heq. pose proof (escape_length s). simpl in Heq. lia.
Qed.

Section Normalization.

Variable cfg : Config.
Variable request : CallToolRequest.
Variable w : World.
Variable runResponse : ScenarioRunServerResponse.
Variable res : Response.
Variable B : json.
Variable output : option json.

Hypothesis Htest : test_tool_name (params_name request) = true.
Hypothesis Hrun :
  scenarios_run w (JsNumber.parseInt (scenarioIdStr request))
    (params_arguments request) = Return runResponse.
Hypothesis Hfetch :
  fetch w (retrieveUrl cfg (executionId runResponse)) (resultsApiSecretKey cfg)
  = Return res.
Hypothesis Hstatus : res_status res = 200.
Hypothesis Hbody : JSON_parse w (res_body res) = Return B.
Hypothesis Houtput : get_property B "output" = Return output.

(** The second copy of the handler follows the normalization rule: the
    placeholder for a missing or [null] output, a string as it is, the
    indented serialization of anything else. *)
Lemma part_000_normalizes_output :
  exists text,
    Part000.CallTool_handler cfg request w initial
    = ({| calls := [trigger request; retrieve cfg (executionId runResponse)];
          executionId_var := executionId runResponse |},
       Return {| toolResult := text |}) /\
    (output = None \/ output = Some JNull -> text = no_output) /\
    (forall s, output = Some (JString s) -> text = s) /\
    (forall v, output = Some v -> v <> JNull -> (forall s, v <> JString s) ->
               text = Json.stringify v 2).
Proof.
  unfold scenarioIdStr in Hrun. unfold retrieveUrl in Hfetch.
  assert (Hok : negb (ok res) = false) by (unfold ok; by rewrite Hstatus).
  eexists. split.
  - unfold Part000.CallTool_handler. rewrite Htest. async_unfold.
    rewrite Hrun. cbn [calls executionId_var]. rewrite Hfetch, Hok, Hbody, Houtput.
    reflexivity.
  - split; [|split].
    + by intros [->| ->].
    + by intros s ->.
    + intros v -> Hnull Hstring. destruct v; try done. by destruct (Hstring s).
Qed.

(** [src/index.ts] serializes every output that is not [undefined]. *)
Lemma index_ts_serializes_output :
  proceeds_to_fetch index_ts runResponse = true ->
  IndexTs.CallTool_handler cfg request w initial
  = ({| calls := [trigger request; retrieve cfg (executionId runResponse)];
        executionId_var := executionId runResponse |},
     Return {| toolResult := match output with
                             | Some v => Json.stringify v 2
                             | None => no_output
                             end |}).
Proof.
  intros Hgate. cbn [proceeds_to_fetch] in Hgate.
  unfold scenarioIdStr in Hrun. unfold retrieveUrl in Hfetch.
  assert (Hok : negb (ok res) = false) by (unfold ok; by rewrite Hstatus).
  unfold IndexTs.CallTool_handler. rewrite Htest. async_unfold.
  rewrite Hrun. cbn [calls executionId_var].
  rewrite <- negb_orb, Hgate. cbn [negb].
  rewrite Hfetch, Hok, Hbody, Houtput. reflexivity.
Qed.

End Normalization.

(** ** Tool names *)

Section ToolNames.





Lemma is_digit_cases (c : ascii) :
  JsNumber.is_digit c = true ->
  c ∈ ["0"; "1"; "2"; "3"; "4"; "5"; "6"; "7"; "8"; "9"]%char.
Proof.
  destruct c as [[] [] [] [] [] [] [] []]; intros Hc; try discriminate Hc;
    rewrite !elem_of_cons; tauto.
Qed.

(** [parseInt] on a non-empty run of decimal digits, with or without a
    minus sign in front. *)
Lemma parseInt_digits (s : string) :
  s <> "" -> JsNumber.all_digits s = true ->
  JsNumber.parseInt s
  = match JsNumber.digits_value 10 s None with Some v => Int v | None => NaN end
  /\ JsNumber.parseInt (String "-" s)
     = match JsNumber.digits_value 10 s None with
       | Some v => Int (-1 * v) | None => NaN
       end.
Proof.
  destruct s as [|c s]; [done|]. intros _ Hs.
  cbn [JsNumber.all_digits] in Hs. apply andb_true_iff in Hs as [Hc Hs].
  apply is_digit_cases in Hc.
  assert (forall o : option Z,
             match o with Some v => Int (1 * v) | None => NaN end
             = match o with Some v => Int v | None => NaN end) as Hone
    by (intros [v|]; [by destruct v | done]).
  repeat (apply elem_of_cons in Hc as [->|Hc]);
    try (by apply elem_of_nil in Hc);
    try (split; [apply Hone | reflexivity]).
  destruct s as [|c' s]; [split; reflexivity|].
  cbn [JsNumber.all_digits] in Hs. apply andb_true_iff in Hs as [Hc' _].
  apply is_digit_cases in Hc'.
  repeat (apply elem_of_cons in Hc' as [->|Hc']);
    try (by apply elem_of_nil in Hc'); (split; [apply Hone | reflexivity]).
Qed.





End ToolNames.

(** ** The remapper on unrecognized type tags *)

Section Remapper.

Import Utils.

(** Induction over a descriptor tree with the hypothesis for all
    children. *)
Lemma Descriptor_tree_ind (P : Descriptor -> Prop) :
  (forall node_name tag spec required label help,
      Forall P spec -> P (mkDescriptor node_name tag spec required label help)) ->
  forall d, P d.
Proof.
  intros Hnode. fix IH 1. intros [node_name tag spec required label help].
  apply Hnode. induction spec as [|c spec IHspec]; constructor; [apply IH | apply IHspec].
Qed.

Lemma sequence_inl {E A} (l : list (E + A)) (e : E) :
  sequence l = inl e -> inl e ∈ l.
Proof.
  induction l as [|[e'|a] l IH]; cbn [sequence]; [done|..].
  - intros [= ->]. apply elem_of_cons. by left.
  - destruct (sequence l); [|done]. intros [= ->].
    apply elem_of_cons. right. by apply IH.
Qed.

Lemma sequence_fails {E A} (l : list (E + A)) (e : E) :
  inl e ∈ l -> exists e', sequence l = inl e'.
Proof.
  induction l as [|[e'|a] l IH]; cbn [sequence].
  - by intros ?%elem_of_nil.
  - by eexists.
  - intros [?|Hin]%elem_of_cons; [done|].
    destruct (IH Hin) as [e' ->]. by eexists.
Qed.

Lemma composite_cases tag :
  composite tag = true -> tag = "array" \/ tag = "collection".
Proof.
  unfold composite. intros [?%String.eqb_eq|?%String.eqb_eq]%orb_true_iff; auto.
Qed.

(** A node with an unrecognized tag is refused, by name. *)
Lemma remap_unrecognized d :
  recognized (d_type d) = false ->
  remap d = inl (Unsupported (d_name d) (d_type d)).
Proof.
  destruct d as [node_name tag spec required label help]. cbn [d_type d_name].
  unfold recognized, composite. intros [[Ha Hc]%orb_false_iff Hp]%orb_false_iff.
  cbn [remap]. rewrite Hc, Ha.
  destruct (primitive tag); [|done].
  apply bool_decide_eq_false in Hp. by destruct Hp.
Qed.

(** An error of the remapper names a node of the tree whose tag is not
    recognized. *)
Lemma remap_error_names_node d e :
  remap d = inl e ->
  exists y, subnode y d /\ recognized (d_type y) = false
            /\ e = Unsupported (d_name y) (d_type y).
Proof.
  revert e. induction d as [node_name tag spec required label help IH]
    using Descriptor_tree_ind.
  intros e Herr.
  set (d := mkDescriptor node_name tag spec required label help) in *.
  assert (Hchildren : sequence (map remap spec) = inl e ->
                      composite tag = true ->
                      exists y, subnode y d /\ recognized (d_type y) = false
                                /\ e = Unsupported (d_name y) (d_type y)).
  { intros Hseq Hcomposite.
    apply sequence_inl, list_elem_of_fmap in Hseq as (c & Hc & Hin).
    rewrite Forall_forall in IH.
    destruct (IH c Hin e (eq_sym Hc)) as (y & Hsub & Hy & ->).
    exists y. split; [|done]. by eapply subnode_child. }
  unfold d in Herr. cbn [remap] in Herr.
  destruct (String.eqb tag "collection") eqn:Hcollection; cbv iota in Herr.
  { destruct (sequence (map remap spec)) as [e'|schemas] eqn:Hseq;
      [|discriminate Herr].
    injection Herr as ->. apply Hchildren; [done|].
    unfold composite. by rewrite Hcollection, orb_true_r. }
  destruct (String.eqb tag "array") eqn:Harray; cbv iota in Herr.
  { destruct (sequence (map remap spec)) as [e'|schemas] eqn:Hseq;
      [|discriminate Herr].
    injection Herr as ->. apply Hchildren; [done|].
    unfold composite. by rewrite Harray. }
  destruct (primitive tag) eqn:Hprimitive; [discriminate Herr|].
  injection Herr as <-. exists d. split; [constructor|]. split; [|done].
  cbn [d d_type]. unfold recognized, composite.
  rewrite Harray, Hcollection, Hprimitive. cbn [orb].
  apply bool_decide_eq_false. by intros [? ?].
Qed.

(** The remapper fails as soon as a node of the tree has an unrecognized
    tag. *)
Lemma remap_fails_below root x :
  subnode x root -> recognized (d_type x) = false ->
  exists e, remap root = inl e.
Proof.
  intros Hsub Hx. induction Hsub as [|parent child Hcomposite Hin Hsub IH].
  - eexists. by apply remap_unrecognized.
  - destruct IH as [e He].
    destruct (sequence_fails (map remap (d_spec parent)) e) as [e' Hseq].
    { apply list_elem_of_fmap. by exists child. }
    destruct parent as [node_name tag spec required label help].
    cbn [d_type d_spec] in *. cbn [remap].
    apply composite_cases in Hcomposite as [-> | ->];
      cbn [String.eqb Ascii.eqb Bool.eqb]; rewrite Hseq; by eexists.
Qed.

(** C9: a node whose type tag is not recognized is refused with an
    [UnsupportedTypeError] carrying its name; and whenever such a node
    occurs in a tree, remapping the tree fails with an
    [UnsupportedTypeError] that names a node of the tree with an
    unrecognized tag, so that no schema is produced without the field. *)
Theorem remap_rejects_unrecognized_types root x :
  subnode x root -> recognized (d_type x) = false ->
  remap x = inl (Unsupported (d_name x) (d_type x)) /\
  exists y, subnode y root /\ recognized (d_type y) = false /\
            remap root = inl (Unsupported (d_name y) (d_type y)).
Proof.
  intros Hsub Hx. split; [by apply remap_unrecognized|].
  destruct (remap_fails_below root x Hsub Hx) as [e He].
  destruct (remap_error_names_node root e He) as (y & Hy & Htag & ->).
  by exists y.
Qed.

End Remapper.

(** ** The statements on the sample collaborators *)

Lemma list_tools_on_demand_in_order_witness :
  scenarios_list (Sample.catalog []) (teamId Sample.cfg)
  = Return [Sample.scenario_A; Sample.scenario_B; Sample.scenario_C] /\
  exists tools st,
    ListTools_handler Utils.remap_or_throw Sample.cfg (Sample.catalog []) initial
    = (st, Return tools) /\
    Forall2 (fun s t =>
               tool_name t = toolName (id s) /\
               tool_description t = toolDescription s /\
               interface_schema Utils.remap_or_throw (Sample.catalog []) (id s)
               = Return (inputSchema t))
            [Sample.scenario_A; Sample.scenario_C] tools /\
    calls st = [CallList (Int 7); CallInterface 1; CallInterface 3].
Proof.
  split; [reflexivity|].
  exact (list_tools_on_demand_in_order Utils.remap_or_throw Sample.cfg
           (Sample.catalog []) _ eq_refl).
Defined.

Lemma list_tools_isolates_failures_witness :
  scenarios_list (Sample.catalog [3]) (teamId Sample.cfg)
  = Return [Sample.scenario_A; Sample.scenario_B; Sample.scenario_C] /\
  exists tools st,
    ListTools_handler Utils.remap_or_throw Sample.cfg (Sample.catalog [3]) initial
    = (st, Return tools) /\
    forall s, s ∈ [Sample.scenario_A; Sample.scenario_B; Sample.scenario_C] ->
      type (scheduling s) = "on-demand" ->
      match interface_schema Utils.remap_or_throw (Sample.catalog [3]) (id s) with
      | Throw _ => forall t, t ∈ tools -> tool_name t <> toolName (id s)
      | Return schema =>
        {| tool_name := toolName (id s);
           tool_description := toolDescription s;
           inputSchema := schema |} ∈ tools
      end.
Proof.
  split; [reflexivity|].
  exact (list_tools_isolates_failures Utils.remap_or_throw Sample.cfg
           (Sample.catalog [3]) _ eq_refl).
Defined.

(** With the interface of C unreachable, the tool of A alone is returned. *)
Example list_tools_without_C :
  snd (ListTools_handler Utils.remap_or_throw Sample.cfg (Sample.catalog [3]) initial)
  = Return
      [{| tool_name := "run_scenario_1";
          tool_description := "A (first)";
          inputSchema :=
            JObject [("type", JString "object");
                     ("properties", JObject [("city", JObject [("type", JString "string")])]);
                     ("required", JArray [JString "city"])] |}].
Proof. reflexivity. Qed.

Lemma list_tools_fails_when_listing_fails_witness :
  scenarios_list Sample.offline (teamId Sample.cfg) = Throw Sample.network_error /\
  ListTools_handler Utils.remap_or_throw Sample.cfg Sample.offline initial
  = ({| calls := [CallList (Int 7)]; executionId_var := "" |},
     Throw (new_McpError InternalError
              ("Failed to list Make scenarios: " +:+ String_ Sample.network_error))) /\
  exists message,
    new_McpError InternalError
      ("Failed to list Make scenarios: " +:+ String_ Sample.network_error)
    = McpError InternalError message /\
    JsString.includes message (String_ Sample.network_error) = true.
Proof.
  split; [reflexivity|].
  exact (list_tools_fails_when_listing_fails Utils.remap_or_throw Sample.cfg
           Sample.offline Sample.network_error eq_refl).
Defined.

Lemma call_tool_unknown_name_witness :
  test_tool_name (params_name (Sample.request "not_a_valid_name")) = false /\
  CallTool_handler index_ts Sample.cfg (Sample.request "not_a_valid_name")
    Sample.offline initial
  = ({| calls := []; executionId_var := "" |},
     Throw (new_McpError InvalidRequest ("Unknown tool: " +:+ "not_a_valid_name"))) /\
  exists message,
    new_McpError InvalidRequest ("Unknown tool: " +:+ "not_a_valid_name")
    = McpError InvalidRequest message /\
    JsString.includes message "not_a_valid_name" = true.
Proof.
  split; [reflexivity|].
  exact (call_tool_unknown_name Sample.cfg (Sample.request "not_a_valid_name")
           Sample.offline index_ts eq_refl).
Defined.

Lemma call_tool_trigger_fails_witness :
  test_tool_name (params_name (Sample.request "run_scenario_42")) = true /\
  scenarios_run Sample.offline
    (JsNumber.parseInt (scenarioIdStr (Sample.request "run_scenario_42")))
    (params_arguments (Sample.request "run_scenario_42"))
  = Throw Sample.network_error /\
  exists message,
    CallTool_handler part_000 Sample.cfg (Sample.request "run_scenario_42")
      Sample.offline initial
    = ({| calls := [trigger (Sample.request "run_scenario_42")];
          executionId_var := "" |},
       Throw (McpError InternalError message)) /\
    message = "MCP error -32603: Network error" /\
    JsString.includes message "Network error" = true.
Proof.
  split; [reflexivity|]. split; [reflexivity|].
  exact (call_tool_trigger_fails Sample.cfg (Sample.request "run_scenario_42")
           Sample.offline part_000 Sample.network_error eq_refl eq_refl).
Defined.

(** The claim C6 as stated, that the message of a failed trigger carries
    the scenario identifier, does not hold: when the trigger of scenario 42
    fails with a network error the message is that of the cause alone. *)
Lemma trigger_failure_message_lacks_scenario_id :
  ~ (forall v cfg request w e,
        test_tool_name (params_name request) = true ->
        scenarios_run w (JsNumber.parseInt (scenarioIdStr request))
          (params_arguments request) = Throw e ->
        exists st message,
          CallTool_handler v cfg request w initial
          = (st, Throw (McpError InternalError message)) /\
          JsString.includes message (scenarioIdStr request) = true /\
          JsString.includes message (cause_text e) = true).
Proof.
  intros Hclaim.
  destruct (Hclaim index_ts Sample.cfg (Sample.request "run_scenario_42")
              Sample.offline Sample.network_error eq_refl eq_refl)
    as (st & message & Hrun & Hid & _).
  vm_compute in Hrun. injection Hrun as _ <-.
  vm_compute in Hid. discriminate Hid.
Qed.

Lemma call_tool_status_gate_witness :
  let request := Sample.request "run_scenario_42" in
  let w := Sample.results (Some "FAILED") 200 (JObject [("output", JString "done")]) in
  test_tool_name (params_name request) = true /\
  scenarios_run w (JsNumber.parseInt (scenarioIdStr request)) (params_arguments request)
  = Return (Sample.run_response (Some "FAILED")) /\
  (exists message,
     IndexTs.CallTool_handler Sample.cfg request w initial
     = ({| calls := [trigger request]; executionId_var := "exec-123" |},
        Throw (McpError InternalError message)) /\
     JsString.includes message "FAILED" = true /\
     JsString.includes message "exec-123" = true) /\
  (exists st outcome,
     Part000.CallTool_handler Sample.cfg request w initial = (st, outcome) /\
     calls st = [trigger request; retrieve Sample.cfg "exec-123"]).
Proof.
  intros request w. split; [reflexivity|]. split; [reflexivity|].
  destruct (call_tool_status_gate Sample.cfg request w
              (Sample.run_response (Some "FAILED")) eq_refl eq_refl)
    as [Hgate Hfetch].
  split; [|exact Hfetch].
  destruct Hgate as (message & Hrun & Hstatus & _ & Hid);
    [discriminate | discriminate |].
  exists message. split; [exact Hrun|]. split; [exact Hstatus | exact Hid].
Defined.


(** The message on that answer: the error thrown in the [try] block is
    wrapped once more by the [catch] block, so the SDK prefix comes twice. *)
Example result_not_found_message :
  snd (CallTool_handler index_ts Sample.cfg (Sample.request "run_scenario_42")
         (Sample.results (Some "COMPLETED") 404 (JObject [("error", JString "gone")]))
         initial)
  = Throw (McpError InternalError
             ("MCP error -32603: MCP error -32603: "
              +:+ "Failed to retrieve results for execution ID exec-123: "
              +:+ "Result not found or expired (404). Detail: gone"
              +:+ " (Make Execution ID: exec-123)")).
Proof. reflexivity. Qed.

(** Outside the contract of the results service: an [error] member that
    is an object with a [toString] member of its own cannot be
    interpolated into the message; the handler then reports the
    [TypeError] of the interpolation, still with code [InternalError]
    and with the execution id. *)
Example result_not_found_with_object_detail :
  snd (CallTool_handler part_000 Sample.cfg (Sample.request "run_scenario_42")
         (Sample.results None 404
            (JObject [("error", JObject [("toString", JNumber "1")])]))
         initial)
  = Throw (new_McpError InternalError
             "Cannot convert object to primitive value (Make Execution ID: exec-123)").
Proof. reflexivity. Qed.

(** C1 on [src/index.ts]: with the body [{output: "done"}] the result is
    the quoted string, not the string; with [{output: null}] it is the
    text [null], not the placeholder.  The second copy of the handler
    returns the string and the placeholder on the same answers. *)
Theorem index_ts_serializes_string_and_null_output :
  let request := Sample.request "run_scenario_42" in
  let done := Sample.results (Some "COMPLETED") 200 (JObject [("output", JString "done")]) in
  let null := Sample.results (Some "COMPLETED") 200 (JObject [("output", JNull)]) in
  snd (IndexTs.CallTool_handler Sample.cfg request done initial)
  = Return {| toolResult := Json.quote "done" |} /\
  Json.quote "done" <> "done" /\
  snd (IndexTs.CallTool_handler Sample.cfg request null initial)
  = Return {| toolResult := "null" |} /\
  snd (Part000.CallTool_handler Sample.cfg request done initial)
  = Return {| toolResult := "done" |} /\
  snd (Part000.CallTool_handler Sample.cfg request null initial)
  = Return {| toolResult := no_output |}.
Proof.
  intros request done null.
  split; [reflexivity|]. split; [apply quote_not_verbatim|].
  split; [reflexivity|]. split; reflexivity.
Qed.

(** The output of the specification's example, [{output: {x: 1}}]. *)
Example call_tool_object_output :
  snd (Part000.CallTool_handler Sample.cfg (Sample.request "run_scenario_42")
         (Sample.results None 200 (JObject [("output", JObject [("x", JNumber "1")])]))
         initial)
  = Return {| toolResult := Json.stringify (JObject [("x", JNumber "1")]) 2 |}.
Proof. reflexivity. Qed.

Lemma part_000_normalizes_output_witness :
  let request := Sample.request "run_scenario_42" in
  let body := JObject [("output", JString "done")] in
  let w := Sample.results None 200 body in
  exists text,
    Part000.CallTool_handler Sample.cfg request w initial
    = ({| calls := [trigger request; retrieve Sample.cfg "exec-123"];
          executionId_var := "exec-123" |},
       Return {| toolResult := text |}) /\
    text = "done".
Proof.
  intros request body w.
  destruct (part_000_normalizes_output Sample.cfg request w (Sample.run_response None)
              (Sample.response 200 body) body (Some (JString "done"))
              eq_refl eq_refl eq_refl eq_refl eq_refl eq_refl)
    as (text & Hrun & _ & Hstring & _).
  exists text. split; [exact Hrun | exact (Hstring "done" eq_refl)].
Defined.

Lemma remap_rejects_unrecognized_types_witness :
  let field := mkDescriptor "when" "date" [] false None None in
  let root := mkDescriptor "wrapper" "collection"
                [mkDescriptor "city" "text" [] true None None; field] false None None in
  Utils.subnode field root /\
  Utils.recognized (d_type field) = false /\
  Utils.remap field = inl (Utils.Unsupported "when" "date") /\
  exists y, Utils.subnode y root /\ Utils.recognized (d_type y) = false /\
            Utils.remap root = inl (Utils.Unsupported (d_name y) (d_type y)).
Proof.
  intros field root.
  assert (Hsub : Utils.subnode field root).
  { apply Utils.subnode_child with field; [reflexivity| |constructor].
    apply elem_of_cons. right. apply elem_of_cons. by left. }
  split; [exact Hsub|]. split; [reflexivity|].
  exact (remap_rejects_unrecognized_types root field Hsub eq_refl).
Defined.

(** * Further properties *)

(** ** The call-tool handler, stage by stage *)

Section Stages.

Variable cfg : Config.
Variable request : CallToolRequest.
Variable w : World.
Variable v : Variant.

Hypothesis Htest : test_tool_name (params_name request) = true.

Lemma stage_trigger_throws e :
  scenarios_run w (JsNumber.parseInt (scenarioIdStr request))
    (params_arguments request) = Throw e ->
  CallTool_handler v cfg request w initial
  = ({| calls := [trigger request]; executionId_var := "" |},
     Throw (reported "" e)).
Proof.
  intros Hrun. unfold scenarioIdStr in Hrun.
  unfold_handler v; rewrite Htest; async_unfold; rewrite Hrun;
    cbn [calls executionId_var JsString.truthy];
    unfold reported, execution_suffix; cbn [JsString.truthy];
    rewrite append_empty_r; by destruct e.
Qed.

Lemma stage_gate_closed runResponse :
  scenarios_run w (JsNumber.parseInt (scenarioIdStr request))
    (params_arguments request) = Return runResponse ->
  proceeds_to_fetch v runResponse = false ->
  CallTool_handler v cfg request w initial
  = ({| calls := [trigger request]; executionId_var := executionId runResponse |},
     Throw (reported (executionId runResponse) (gate_error runResponse))).
Proof.
  intros Hrun Hgate. unfold scenarioIdStr in Hrun.
  destruct v; [|discriminate Hgate]. cbn [proceeds_to_fetch] in Hgate.
  unfold CallTool_handler, IndexTs.CallTool_handler. rewrite Htest. async_unfold.
  rewrite Hrun. cbn [calls executionId_var].
  rewrite <- negb_orb, Hgate. cbn [negb].
  unfold reported, execution_suffix, gate_error.
  cbn [reported_code reported_text new_McpError].
  by destruct (JsString.truthy _); rewrite ?append_empty_r.
Qed.

Lemma gate_open runResponse :
  proceeds_to_fetch v runResponse = true ->
  match v with
  | index_ts =>
    negb (status_is (status runResponse) "COMPLETED")
    && negb (status_is (status runResponse) "OK") = false
  | part_000 => True
  end.
Proof.
  destruct v; [|done]. cbn [proceeds_to_fetch]. intros Hgate.
  by rewrite <- negb_orb, Hgate.
Qed.

Lemma stage_fetch_throws runResponse e :
  scenarios_run w (JsNumber.parseInt (scenarioIdStr request))
    (params_arguments request) = Return runResponse ->
  proceeds_to_fetch v runResponse = true ->
  fetch w (retrieveUrl cfg (executionId runResponse)) (resultsApiSecretKey cfg)
  = Throw e ->
  CallTool_handler v cfg request w initial
  = ({| calls := [trigger request; retrieve cfg (executionId runResponse)];
        executionId_var := executionId runResponse |},
     Throw (reported (executionId runResponse) e)).
Proof.
  intros Hrun Hgate%gate_open Hfetch.
  unfold scenarioIdStr in Hrun. unfold retrieveUrl in Hfetch.
  unfold_handler v; rewrite Htest; async_unfold; rewrite Hrun;
    cbn [calls executionId_var]; rewrite ?Hgate, Hfetch;
    unfold reported, execution_suffix;
    destruct (JsString.truthy _); rewrite ?append_empty_r; by destruct e.
Qed.

Lemma stage_not_ok runResponse res :
  scenarios_run w (JsNumber.parseInt (scenarioIdStr request))
    (params_arguments request) = Return runResponse ->
  proceeds_to_fetch v runResponse = true ->
  fetch w (retrieveUrl cfg (executionId runResponse)) (resultsApiSecretKey cfg)
  = Return res ->
  ok res = false ->
  CallTool_handler v cfg request w initial
  = ({| calls := [trigger request; retrieve cfg (executionId runResponse)];
        executionId_var := executionId runResponse |},
     Throw (reported (executionId runResponse)
              (retrieval_error w res (executionId runResponse)))).
Proof.
  intros Hrun Hgate%gate_open Hfetch Hok.
  unfold scenarioIdStr in Hrun. unfold retrieveUrl in Hfetch.
  unfold retrieval_error, error_detail.
  unfold_handler v; rewrite Htest; async_unfold; rewrite Hrun;
    cbn [calls executionId_var]; rewrite ?Hgate, Hfetch, Hok; cbn [negb];
    async_unfold;
    (destruct (JSON_parse w (res_body res)) as [errorJson|e];
     [destruct (get_property errorJson "error")|]);
    destruct (res_status res =? 404);
    (destruct (template _) as [detail|e'];
     unfold reported, execution_suffix;
     destruct (JsString.truthy _); rewrite ?append_empty_r;
     try reflexivity; by destruct e').
Qed.

Lemma stage_ok runResponse res :
  scenarios_run w (JsNumber.parseInt (scenarioIdStr request))
    (params_arguments request) = Return runResponse ->
  proceeds_to_fetch v runResponse = true ->
  fetch w (retrieveUrl cfg (executionId runResponse)) (resultsApiSecretKey cfg)
  = Return res ->
  ok res = true ->
  CallTool_handler v cfg request w initial
  = ({| calls := [trigger request; retrieve cfg (executionId runResponse)];
        executionId_var := executionId runResponse |},
     retrieved v w res (executionId runResponse)).
Proof.
  intros Hrun Hgate%gate_open Hfetch Hok.
  unfold scenarioIdStr in Hrun. unfold retrieveUrl in Hfetch.
  unfold retrieved.
  unfold_handler v; rewrite Htest; async_unfold; rewrite Hrun;
    cbn [calls executionId_var]; rewrite ?Hgate, Hfetch, Hok; cbn [negb];
    (destruct (JSON_parse w (res_body res)) as [data|e];
     [destruct (get_property data "output") as [output|e]|]);
    unfold reported, execution_suffix;
    try (destruct (JsString.truthy _); rewrite ?append_empty_r; by destruct e).
  - by destruct output.
  - by destruct output as [[]|].
Qed.

End Stages.

(** Case analysis on the run of the call-tool handler: a property holds
    of the run as soon as it holds of each of its six possible courses. *)
Lemma CallTool_handler_cases (v : Variant) (cfg : Config)
    (request : CallToolRequest) (w : World)
    (P : State * Completion CallToolResult -> Prop) :
  (test_tool_name (params_name request) = false ->
   P ({| calls := []; executionId_var := "" |},
      Throw (new_McpError InvalidRequest ("Unknown tool: " +:+ params_name request)))) ->
  (forall e,
      test_tool_name (params_name request) = true ->
      scenarios_run w (JsNumber.parseInt (scenarioIdStr request))
        (params_arguments request) = Throw e ->
      P ({| calls := [trigger request]; executionId_var := "" |},
         Throw (reported "" e))) ->
  (forall runResponse,
      test_tool_name (params_name request) = true ->
      scenarios_run w (JsNumber.parseInt (scenarioIdStr request))
        (params_arguments request) = Return runResponse ->
      proceeds_to_fetch v runResponse = false ->
      P ({| calls := [trigger request];
            executionId_var := executionId runResponse |},
         Throw (reported (executionId runResponse) (gate_error runResponse)))) ->
  (forall runResponse,
      test_tool_name (params_name request) = true ->
      scenarios_run w (JsNumber.parseInt (scenarioIdStr request))
        (params_arguments request) = Return runResponse ->
      proceeds_to_fetch v runResponse = true ->
      let executionId := executionId runResponse in
      let st := {| calls := [trigger request; retrieve cfg executionId];
                   executionId_var := executionId |} in
      match fetch w (retrieveUrl cfg executionId) (resultsApiSecretKey cfg) with
      | Throw e => P (st, Throw (reported executionId e))
      | Return res =>
        if ok res then P (st, retrieved v w res executionId)
        else P (st, Throw (reported executionId (retrieval_error w res executionId)))
      end) ->
  P (CallTool_handler v cfg request w initial).
Proof.
  intros Hname Hthrows Hclosed Hopen.
  destruct (test_tool_name (params_name request)) eqn:Htest.
  - destruct (scenarios_run w (JsNumber.parseInt (scenarioIdStr request))
                (params_arguments request)) as [runResponse|e] eqn:Hrun.
    + destruct (proceeds_to_fetch v runResponse) eqn:Hgate.
      * specialize (Hopen runResponse eq_refl eq_refl Hgate). cbv zeta in Hopen.
        destruct (fetch w _ _) as [res|e] eqn:Hfetch.
        -- destruct (ok res) eqn:Hok.
           ++ by rewrite (stage_ok cfg request w v Htest runResponse res).
           ++ by rewrite (stage_not_ok cfg request w v Htest runResponse res).
        -- by rewrite (stage_fetch_throws cfg request w v Htest runResponse e).
      * rewrite (stage_gate_closed cfg request w v Htest runResponse Hrun Hgate).
        by apply Hclosed.
    + rewrite (stage_trigger_throws cfg request w v Htest e Hrun).
      by apply Hthrows.
  - assert (CallTool_handler v cfg request w initial
            = ({| calls := []; executionId_var := "" |},
               Throw (new_McpError InvalidRequest
                        ("Unknown tool: " +:+ params_name request)))) as ->.
    { unfold_handler v; rewrite Htest; by async_unfold. }
    by apply Hname.
Qed.

(** ** What the call-tool handler does on every course *)

Section EveryCourse.

Variable v : Variant.
Variable cfg : Config.
Variable request : CallToolRequest.
Variable w : World.

(** The calls of a run, by its course. *)
Lemma handler_calls :
  calls (fst (CallTool_handler v cfg request w initial))
  = if test_tool_name (params_name request) then
      match scenarios_run w (JsNumber.parseInt (scenarioIdStr request))
              (params_arguments request) with
      | Return runResponse =>
        if proceeds_to_fetch v runResponse
        then [trigger request; retrieve cfg (executionId runResponse)]
        else [trigger request]
      | Throw _ => [trigger request]
      end
    else [].
Proof.
  apply CallTool_handler_cases.
  - by intros ->.
  - by intros e -> ->.
  - by intros runResponse -> -> ->.
  - intros runResponse -> -> -> executionId st.
    destruct (fetch w _ _) as [res|e]; [by destruct (ok res) | done].
Qed.

(** X1: The calls of a run: none for a rejected name; otherwise the trigger,
    once, followed by one result fetch exactly when the trigger answered
    and the copy goes on to the retrieval.  Nothing is retried, and the
    scenarios are never listed nor their interfaces fetched. *)
Theorem call_tool_calls :
  calls (fst (CallTool_handler v cfg request w initial))
  = if test_tool_name (params_name request) then
      match scenarios_run w (JsNumber.parseInt (scenarioIdStr request))
              (params_arguments request) with
      | Return runResponse =>
        if proceeds_to_fetch v runResponse
        then [trigger request; retrieve cfg (executionId runResponse)]
        else [trigger request]
      | Throw _ => [trigger request]
      end
    else [].
Proof. exact handler_calls. Qed.

(** X2: The trigger is issued exactly for the names made of [run_scenario_]
    followed by one decimal digit or more; for any other name no call is
    issued at all. *)
Theorem call_tool_triggers_iff_name_matches :
  trigger request ∈ calls (fst (CallTool_handler v cfg request w initial))
  <->
  exists digits,
    params_name request = "run_scenario_" +:+ digits /\ digits <> ""
    /\ JsNumber.all_digits digits = true.
Proof.
  rewrite handler_calls, <- test_tool_name_spec.
  destruct (test_tool_name (params_name request)).
  - split; [done|]. intros _. repeat case_match; apply elem_of_cons; by left.
  - split; [by intros ?%elem_of_nil | done].
Qed.



Lemma reported_ends_with_execution_id executionId e :
  executionId <> "" ->
  exists code body,
    reported executionId e
    = McpError code (body +:+ " (Make Execution ID: " +:+ executionId +:+ ")").
Proof.
  intros Hid. unfold reported, new_McpError, execution_suffix.
  destruct executionId as [|c rest]; [done|]. cbn [JsString.truthy].
  exists (reported_code e),
    ("MCP error " +:+ JsNumber.toString (reported_code e) +:+ ": "
     +:+ reported_text e).
  by rewrite !append_assoc.
Qed.

(** X4: Once the trigger has answered with a non-empty execution id, every
    failure of the run ends its message with that execution id. *)
Theorem call_tool_failure_ends_with_execution_id runResponse e :
  test_tool_name (params_name request) = true ->
  scenarios_run w (JsNumber.parseInt (scenarioIdStr request))
    (params_arguments request) = Return runResponse ->
  executionId runResponse <> "" ->
  snd (CallTool_handler v cfg request w initial) = Throw e ->
  exists code body,
    e = McpError code
          (body +:+ " (Make Execution ID: " +:+ executionId runResponse +:+ ")").
Proof.
  intros Htest Hrun Hid. apply CallTool_handler_cases; cbn [snd].
  - congruence.
  - congruence.
  - intros r _ Hr _ [= <-]. assert (r = runResponse) as -> by congruence.
    by apply reported_ends_with_execution_id.
  - intros r _ Hr _. cbv zeta.
    assert (r = runResponse) as -> by congruence.
    destruct (fetch w _ _) as [res|e']; [destruct (ok res)|]; cbn [snd].
    + unfold retrieved. repeat case_match; intros [= <-] || intros [=];
        by apply reported_ends_with_execution_id.
    + intros [= <-]. by apply reported_ends_with_execution_id.
    + intros [= <-]. by apply reported_ends_with_execution_id.
Qed.

End EveryCourse.

(** ** The retrieval, answer by answer *)

Lemma reported_includes executionId e :
  exists message,
    reported executionId e = McpError (reported_code e) message /\
    JsString.includes message (cause_text e) = true /\
    JsString.includes message executionId = true.
Proof.
  eexists. split; [reflexivity|]. unfold execution_suffix. split.
  - destruct e; cbn [cause_text reported_text]; find_included.
  - destruct executionId as [|c rest]; [apply includes_empty|].
    cbn [JsString.truthy]. find_included.
Qed.

Section Retrieval.

Variable v : Variant.
Variable cfg : Config.
Variable request : CallToolRequest.
Variable w : World.
Variable runResponse : ScenarioRunServerResponse.

Hypothesis Htest : test_tool_name (params_name request) = true.
Hypothesis Hrun :
  scenarios_run w (JsNumber.parseInt (scenarioIdStr request))
    (params_arguments request) = Return runResponse.
Hypothesis Hgate : proceeds_to_fetch v runResponse = true.

(** X5: When the fetch itself throws, the run fails after that single attempt
    with the code [InternalError] (or the code of the cause if it is an
    [McpError]) and a message that carries the text of the cause and the
    execution id. *)
Theorem call_tool_fetch_throws e :
  fetch w (retrieveUrl cfg (executionId runResponse)) (resultsApiSecretKey cfg)
  = Throw e ->
  exists message,
    CallTool_handler v cfg request w initial
    = ({| calls := [trigger request; retrieve cfg (executionId runResponse)];
          executionId_var := executionId runResponse |},
       Throw (McpError (reported_code e) message)) /\
    JsString.includes message (cause_text e) = true /\
    JsString.includes message (executionId runResponse) = true.
Proof.
  intros Hfetch.
  rewrite (stage_fetch_throws cfg request w v Htest runResponse e Hrun Hgate Hfetch).
  destruct (reported_includes (executionId runResponse) e)
    as (message & -> & Hcause & Hid).
  by exists message.
Qed.

(** X6: A failure status other than 404 gives an [InternalError] whose
    message carries the status code in decimal, the error detail and the
    execution id. *)
Theorem call_tool_retrieval_status res detail :
  fetch w (retrieveUrl cfg (executionId runResponse)) (resultsApiSecretKey cfg)
  = Return res ->
  ok res = false ->
  res_status res <> 404 ->
  Json.to_string (error_detail w res) = Some detail ->
  exists message,
    CallTool_handler v cfg request w initial
    = ({| calls := [trigger request; retrieve cfg (executionId runResponse)];
          executionId_var := executionId runResponse |},
       Throw (McpError InternalError message)) /\
    JsString.includes message (JsNumber.toString (res_status res)) = true /\
    JsString.includes message detail = true /\
    JsString.includes message (executionId runResponse) = true.
Proof.
  intros Hfetch Hok Hstatus Hdetail.
  rewrite (stage_not_ok cfg request w v Htest runResponse res Hrun Hgate Hfetch Hok).
  unfold retrieval_error, template. rewrite Hdetail.
  apply Z.eqb_neq in Hstatus. rewrite Hstatus.
  eexists. split; [reflexivity|].
  unfold execution_suffix. cbn [reported_text new_McpError].
  repeat split; destruct (JsString.truthy _); find_included.
Qed.

(** X7: A body of a failure answer that is not JSON is reported as it is: the
    message carries the whole body text. *)
Theorem call_tool_retrieval_plain_text res e :
  fetch w (retrieveUrl cfg (executionId runResponse)) (resultsApiSecretKey cfg)
  = Return res ->
  ok res = false ->
  JSON_parse w (res_body res) = Throw e ->
  exists message,
    snd (CallTool_handler v cfg request w initial)
    = Throw (McpError InternalError message) /\
    JsString.includes message (res_body res) = true.
Proof.
  intros Hfetch Hok Hparse.
  rewrite (stage_not_ok cfg request w v Htest runResponse res Hrun Hgate Hfetch Hok).
  unfold retrieval_error, error_detail, template. rewrite Hparse.
  cbn [Json.to_string snd]. eexists. split; [reflexivity|].
  unfold execution_suffix. cbn [reported_text new_McpError].
  destruct (res_status res =? 404); destruct (JsString.truthy _); find_included.
Qed.

(** X8: A JSON object body of a failure answer whose [error] member is missing
    or falsy (empty, zero, false or null) is reported like plain text:
    the message carries the whole body text. *)
Theorem call_tool_retrieval_error_member_unusable res props :
  fetch w (retrieveUrl cfg (executionId runResponse)) (resultsApiSecretKey cfg)
  = Return res ->
  ok res = false ->
  JSON_parse w (res_body res) = Return (JObject props) ->
  match Json.own_property "error" props with
  | Some error => Json.truthy error = false
  | None => True
  end ->
  exists message,
    snd (CallTool_handler v cfg request w initial)
    = Throw (McpError InternalError message) /\
    JsString.includes message (res_body res) = true.
Proof.
  intros Hfetch Hok Hparse Herror.
  rewrite (stage_not_ok cfg request w v Htest runResponse res Hrun Hgate Hfetch Hok).
  unfold retrieval_error, error_detail, template. rewrite Hparse.
  cbn [get_property or_else].
  assert (or_else (Json.own_property "error" props) (JString (res_body res))
          = JString (res_body res)) as ->.
  { destruct (Json.own_property "error" props) as [error|]; [|done].
    cbn [or_else]. by rewrite Herror. }
  cbn [Json.to_string snd]. eexists. split; [reflexivity|].
  unfold execution_suffix. cbn [reported_text new_McpError].
  destruct (res_status res =? 404); destruct (JsString.truthy _); find_included.
Qed.

(** X9: When the error detail of a failure answer does not convert to text,
    the run still fails with the code [InternalError] and the execution
    id, but with the message of the conversion error: the status code and
    the detail are lost. *)
Theorem call_tool_retrieval_detail_not_text res :
  fetch w (retrieveUrl cfg (executionId runResponse)) (resultsApiSecretKey cfg)
  = Return res ->
  ok res = false ->
  Json.to_string (error_detail w res) = None ->
  snd (CallTool_handler v cfg request w initial)
  = Throw (new_McpError InternalError
             ("Cannot convert object to primitive value"
              +:+ execution_suffix (executionId runResponse))).
Proof.
  intros Hfetch Hok Hdetail.
  rewrite (stage_not_ok cfg request w v Htest runResponse res Hrun Hgate Hfetch Hok).
  unfold retrieval_error, template. by rewrite Hdetail.
Qed.

(** X10: A success status with a body that is not JSON is a failure: the run
    throws with the text of the parser's error and the execution id, and
    returns no result. *)
Theorem call_tool_success_body_not_json res e :
  fetch w (retrieveUrl cfg (executionId runResponse)) (resultsApiSecretKey cfg)
  = Return res ->
  ok res = true ->
  JSON_parse w (res_body res) = Throw e ->
  exists message,
    snd (CallTool_handler v cfg request w initial)
    = Throw (McpError (reported_code e) message) /\
    JsString.includes message (cause_text e) = true /\
    JsString.includes message (executionId runResponse) = true.
Proof.
  intros Hfetch Hok Hparse.
  rewrite (stage_ok cfg request w v Htest runResponse res Hrun Hgate Hfetch Hok).
  unfold retrieved. rewrite Hparse. cbn [snd].
  destruct (reported_includes (executionId runResponse) e)
    as (message & -> & Hcause & Hid).
  by exists message.
Qed.

(** X11: Every status from 200 to 299 is a success, and the result then
    depends on the shape of the body: [null] makes the run fail (reading
    [output] of [null] throws); a number, a string, a boolean or an array
    has no [output] member and gives the placeholder; an object gives the
    normalization of its [output] member. *)
Theorem call_tool_success_body_shapes res retrievedData :
  fetch w (retrieveUrl cfg (executionId runResponse)) (resultsApiSecretKey cfg)
  = Return res ->
  200 <= res_status res <= 299 ->
  JSON_parse w (res_body res) = Return retrievedData ->
  match retrievedData with
  | JNull =>
    exists message,
      snd (CallTool_handler v cfg request w initial)
      = Throw (McpError InternalError message) /\
      JsString.includes message (executionId runResponse) = true
  | JObject props =>
    snd (CallTool_handler v cfg request w initial)
    = Return {| toolResult := normalized v (Json.own_property "output" props) |}
  | _ =>
    snd (CallTool_handler v cfg request w initial)
    = Return {| toolResult := no_output |}
  end.
Proof.
  intros Hfetch Hstatus Hparse.
  assert (Hok : ok res = true) by (unfold ok; apply andb_true_iff; lia).
  rewrite (stage_ok cfg request w v Htest runResponse res Hrun Hgate Hfetch Hok).
  unfold retrieved. rewrite Hparse. cbn [snd].
  destruct retrievedData as [| | | | |props]; try (by destruct v).
  cbn [get_property].
  edestruct reported_includes as (message & -> & _ & Hid). by exists message.
Qed.

End Retrieval.

(** ** The two copies side by side *)

Lemma normalized_agree output :
  normalized index_ts output = normalized part_000 output <->
  output <> Some JNull /\ (forall s, output <> Some (JString s)).
Proof.
  destruct output as [[| | |s| |]|]; cbn [normalized]; split;
    try (by intros _; split; [|intros s']); try done.
  - by intros [? _].
  - intros Heq. by destruct (quote_not_verbatim s).
  - intros [_ Hs]. by destruct (Hs s).
Qed.

(** X12: The two copies of the handler give the same run (same calls, same
    result or error) exactly when [src/index.ts] lets the trigger answer
    through its status test and no success body has an [output] member
    that is [null] or a string. *)
Theorem copies_agree_iff cfg request w :
  IndexTs.CallTool_handler cfg request w initial
  = Part000.CallTool_handler cfg request w initial
  <->
  (forall runResponse,
      test_tool_name (params_name request) = true ->
      scenarios_run w (JsNumber.parseInt (scenarioIdStr request))
        (params_arguments request) = Return runResponse ->
      proceeds_to_fetch index_ts runResponse = true /\
      forall res retrievedData output,
        fetch w (retrieveUrl cfg (executionId runResponse)) (resultsApiSecretKey cfg)
        = Return res ->
        ok res = true ->
        JSON_parse w (res_body res) = Return retrievedData ->
        get_property retrievedData "output" = Return output ->
        output <> Some JNull /\ (forall s, output <> Some (JString s))).
Proof.
  change (IndexTs.CallTool_handler cfg request w initial)
    with (CallTool_handler index_ts cfg request w initial).
  change (Part000.CallTool_handler cfg request w initial)
    with (CallTool_handler part_000 cfg request w initial).
  split.
  - intros Heq runResponse Htest Hrun.
    assert (Hgate : proceeds_to_fetch index_ts runResponse = true).
    { pose proof (f_equal (fun run => calls (fst run)) Heq) as Hcalls.
      cbv beta in Hcalls. rewrite !handler_calls, Htest, Hrun in Hcalls.
      by destruct (proceeds_to_fetch index_ts runResponse). }
    split; [done|]. intros res retrievedData output Hfetch Hok Hparse Houtput.
    rewrite (stage_ok cfg request w index_ts Htest runResponse res Hrun Hgate Hfetch Hok),
      (stage_ok cfg request w part_000 Htest runResponse res Hrun eq_refl Hfetch Hok)
      in Heq.
    unfold retrieved in Heq. rewrite Hparse, Houtput in Heq.
    apply normalized_agree. congruence.
  - intros Hsame.
    destruct (test_tool_name (params_name request)) eqn:Htest.
    + destruct (scenarios_run w (JsNumber.parseInt (scenarioIdStr request))
                  (params_arguments request)) as [runResponse|e] eqn:Hrun.
      * destruct (Hsame runResponse eq_refl eq_refl) as [Hgate Houtput].
        destruct (fetch w (retrieveUrl cfg (executionId runResponse))
                    (resultsApiSecretKey cfg)) as [res|e] eqn:Hfetch.
        -- destruct (ok res) eqn:Hok.
           ++ rewrite (stage_ok cfg request w index_ts Htest runResponse res
                         Hrun Hgate Hfetch Hok),
                (stage_ok cfg request w part_000 Htest runResponse res
                   Hrun eq_refl Hfetch Hok).
              unfold retrieved.
              destruct (JSON_parse w (res_body res)) as [retrievedData|e] eqn:Hparse;
                [|done].
              destruct (get_property retrievedData "output") as [output|e] eqn:Hout;
                [|done].
              do 3 f_equal. apply normalized_agree. by eapply Houtput.
           ++ by rewrite (stage_not_ok cfg request w index_ts Htest runResponse res
                            Hrun Hgate Hfetch Hok),
                (stage_not_ok cfg request w part_000 Htest runResponse res
                   Hrun eq_refl Hfetch Hok).
        -- by rewrite (stage_fetch_throws cfg request w index_ts Htest runResponse e
                         Hrun Hgate Hfetch),
             (stage_fetch_throws cfg request w part_000 Htest runResponse e
                Hrun eq_refl Hfetch).
      * by rewrite (stage_trigger_throws cfg request w index_ts Htest e Hrun),
          (stage_trigger_throws cfg request w part_000 Htest e Hrun).
    + unfold CallTool_handler, IndexTs.CallTool_handler, Part000.CallTool_handler.
      by rewrite Htest.
Qed.

(** ** Tool names between discovery and invocation *)

Lemma digit_of_is_digit (c : ascii) :
  JsNumber.is_digit c = true ->
  exists d, JsNumber.digit 10 c = Some d /\ 0 <= d <= 9.
Proof.
  intros Hc%is_digit_cases.
  repeat (apply elem_of_cons in Hc as [->|Hc]);
    try (by apply elem_of_nil in Hc); eexists;
    (split; [vm_compute; reflexivity | lia]).
Qed.



(** X14: Leading zeros are ignored: the name with a zero put in front of the
    digits is accepted as well and triggers the same scenario. *)
Theorem leading_zero_is_an_alias (digits : string) (arguments : option json) :
  digits <> "" ->
  JsNumber.all_digits digits = true ->
  let plain := {| params_name := "run_scenario_" +:+ digits;
                  params_arguments := arguments |} in
  let padded := {| params_name := "run_scenario_" +:+ String "0" digits;
                   params_arguments := arguments |} in
  test_tool_name (params_name plain) = true /\
  test_tool_name (params_name padded) = true /\
  trigger padded = trigger plain.
Proof.
  intros Hnonempty Hdigits plain padded. split; [|split].
  - apply test_tool_name_spec. by exists digits.
  - apply test_tool_name_spec. by exists (String "0" digits).
  - unfold trigger, scenarioIdStr, plain, padded. cbn [params_name params_arguments].
    change 13%nat with (String.length "run_scenario_"). rewrite !substring_append.
    f_equal.
    destruct (parseInt_digits digits Hnonempty Hdigits) as [-> _].
    destruct (parseInt_digits (String "0" digits) ltac:(done) ltac:(done)) as [-> _].
    destruct digits as [|c digits]; [done|].
    cbn [JsNumber.all_digits] in Hdigits. apply andb_true_iff in Hdigits as [Hc _].
    destruct (digit_of_is_digit c Hc) as (d & Hd & _).
    cbn [JsNumber.digits_value]. rewrite Hd.
    change (JsNumber.digit 10 "0") with (Some 0). by cbv beta iota.
Qed.

(** X15: The name derived for a scenario with a negative identifier is
    refused by the handler: such a tool can be listed but not called. *)
Theorem negative_identifier_not_callable v cfg w (n : Z) (arguments : option json) :
  n < 0 ->
  CallTool_handler v cfg
    {| params_name := toolName n; params_arguments := arguments |} w initial
  = ({| calls := []; executionId_var := "" |},
     Throw (new_McpError InvalidRequest ("Unknown tool: " +:+ toolName n))).
Proof.
  intros Hn.
  assert (test_tool_name (toolName n) = false) as Htest.
  { destruct n as [|p|p]; [lia|lia|].
    unfold test_tool_name, toolName, JsNumber.toString.
    change 13%nat with (String.length "run_scenario_"). rewrite substring_append.
    change (pretty (Zneg p)) with (String "-" (pretty_N_go (Npos p) "")).
    cbn [JsString.truthy JsNumber.all_digits].
    change (JsNumber.is_digit "-") with false. by rewrite andb_false_r. }
  unfold_handler v; cbn [params_name]; rewrite Htest; by async_unfold.
Qed.

Section ListedTools.

Variable remap : Descriptor -> Completion json.
Variable cfg : Config.
Variable w : World.
Variable ss : list Scenario.
Variable st : State.
Variable tools : list Tool.

Hypothesis Hlist : scenarios_list w (teamId cfg) = Return ss.
Hypothesis Hrun : ListTools_handler remap cfg w initial = (st, Return tools).


(** X17: The names of the returned tools are pairwise distinct when the
    identifiers of the listed on-demand scenarios are. *)
Theorem listed_tool_names_distinct :
  NoDup (map id (filter on_demand ss)) ->
  NoDup (map tool_name tools).
Proof.
  intros Hids. rewrite (ListTools_listed remap cfg w ss Hlist) in Hrun.
  injection Hrun as _ <-.
  induction (filter on_demand ss) as [|s l IH]; [constructor|].
  cbn [map] in Hids. apply NoDup_cons in Hids as [Hfresh Hids].
  change (omap (tool_for remap w) (s :: l))
    with (match tool_for remap w s with
          | Some t => t :: omap (tool_for remap w) l
          | None => omap (tool_for remap w) l
          end).
  destruct (tool_for remap w s) as [t|] eqn:Htool; [|by apply IH].
  cbn [map]. apply NoDup_cons. split; [|by apply IH].
  intros (t' & Hname & Hin)%list_elem_of_fmap.
  apply list_elem_of_omap in Hin as (s' & Hs' & Htool').
  apply tool_for_Some in Htool as (_ & Ht & _).
  apply tool_for_Some in Htool' as (_ & Ht' & _).
  apply Hfresh, list_elem_of_fmap. exists s'. split; [|done].
  apply (toolName_inj). congruence.
Qed.

End ListedTools.

(** ** Start-up *)

Section StartupFacts.

Import Startup.

Lemma remove_trailing_slash_cons c s :
  s <> "" -> remove_trailing_slash (String c s) = String c (remove_trailing_slash s).
Proof. by destruct s. Qed.

Lemma remove_trailing_slash_app s : remove_trailing_slash (s +:+ "/") = s.
Proof.
  induction s as [|c s IH]; [done|].
  rewrite append_cons, remove_trailing_slash_cons, IH; [done|].
  by destruct s.
Qed.

Lemma remove_trailing_slash_cases s :
  (exists t, s = t +:+ "/" /\ remove_trailing_slash s = t) \/
  (~ ends_with_slash s /\ remove_trailing_slash s = s).
Proof.
  induction s as [|c s IH].
  - right. split; [|done]. by intros [[|c t] Ht].
  - destruct IH as [(t & -> & Ht)|[Hends Hs]].
    + left. exists (String c t). split; [done|].
      rewrite remove_trailing_slash_cons, Ht; [done|]. by destruct t.
    + destruct s as [|c' s].
      * destruct (Ascii.eqb_spec c "/") as [->|Hc].
        -- left. by exists "".
        -- right. split.
           ++ intros [[|c' t] Ht]; [|by destruct t].
              rewrite append_nil in Ht. congruence.
           ++ cbn [remove_trailing_slash].
              by destruct (Ascii.eqb_spec c "/").
      * right. split.
        -- intros [[|c'' t] Ht]; [done|].
           rewrite append_cons in Ht. injection Ht as _ Ht.
           apply Hends. by exists t.
        -- by rewrite remove_trailing_slash_cons, Hs.
Qed.

(** X18: The base URL loses one trailing slash and nothing else: a value that
    ends with a slash loses that single character, any other value is
    kept as it is. *)
Theorem remove_trailing_slash_spec s :
  (exists t, s = t +:+ "/" /\ remove_trailing_slash s = t) \/
  (~ ends_with_slash s /\ remove_trailing_slash s = s).
Proof. exact (remove_trailing_slash_cases s). Qed.

Lemma startup_all_set v env :
  Forall (fun name => unset env name = false) required_variables ->
  startup v env
  = let teamId := JsNumber.parseInt (get env "MAKE_TEAM") in
    if match v with index_ts => false | part_000 => isNaN teamId end
    then Exit (team_not_a_number (get env "MAKE_TEAM"))
    else Ready {| apiKey := get env "MAKE_API_KEY";
                  zone := get env "MAKE_ZONE";
                  config :=
                    {| teamId := teamId;
                       resultsApiUrl := remove_trailing_slash (get env "RESULTS_API_URL");
                       resultsApiSecretKey := get env "RESULTS_API_SECRET_KEY" |} |}.
Proof.
  unfold required_variables. rewrite !Forall_cons.
  intros (H1 & H2 & H3 & H4 & H5 & _). unfold startup.
  by rewrite H1, H2, H3, H4, H5.
Qed.

(** X19: The variables are checked in a fixed order and the first one that is
    missing or empty is the one reported; nothing after it is looked at. *)
Theorem startup_reports_first_missing v env before name after :
  required_variables = before ++ name :: after ->
  Forall (fun n => unset env n = false) before ->
  unset env name = true ->
  startup v env = Exit (please_provide name).
Proof.
  unfold required_variables. intros Hsplit Hbefore Hname.
  do 5 (destruct before as [|? before];
        [injection Hsplit as <- _; unfold startup;
         repeat match goal with
                | H : Forall _ (_ :: _) |- _ =>
                  apply Forall_cons in H as [-> H]
                end;
         by rewrite Hname
        |injection Hsplit as <- Hsplit]).
  by destruct before.
Qed.

(** X20: When the top level goes on to register the handlers, every required
    variable was set and not empty, the secret key is the variable as it
    is, the base URL is the variable less one trailing slash, and in the
    second copy the team identifier is a number. *)
Theorem startup_ready v env settings :
  startup v env = Ready settings ->
  Forall (fun name => exists value, env !! name = Some value /\ value <> "")
         required_variables /\
  env !! "RESULTS_API_SECRET_KEY" = Some (resultsApiSecretKey (config settings)) /\
  (env !! "RESULTS_API_URL" = Some (resultsApiUrl (config settings)) \/
   env !! "RESULTS_API_URL" = Some (resultsApiUrl (config settings) +:+ "/")) /\
  teamId (config settings) = JsNumber.parseInt (get env "MAKE_TEAM") /\
  (v = part_000 -> exists n, teamId (config settings) = Int n).
Proof.
  intros Hready.
  assert (Hset : Forall (fun name => unset env name = false) required_variables).
  { unfold startup in Hready. unfold required_variables.
    repeat (apply Forall_cons; split); [..|constructor];
      repeat (case_match; try done). }
  assert (Hvalue : forall name, unset env name = false ->
                     exists value, env !! name = Some value /\ value <> ""
                                   /\ get env name = value).
  { intros name Hname. unfold unset, get in *.
    destruct (env !! name) as [[|c value]|]; try done. by eexists. }
  rewrite (startup_all_set v env Hset) in Hready. cbv zeta in Hready.
  destruct (match v with index_ts => false | part_000 => _ end) eqn:Hteam; [done|].
  injection Hready as <-. cbn [config resultsApiSecretKey resultsApiUrl teamId].
  split; [|split; [|split; [|split]]].
  - eapply Forall_impl; [exact Hset|]. intros name Hname.
    destruct (Hvalue name Hname) as (value & ? & ? & _). by exists value.
  - unfold required_variables in Hset. rewrite !Forall_cons in Hset.
    destruct Hset as (_ & _ & _ & _ & Hkey & _).
    destruct (Hvalue _ Hkey) as (value & -> & _ & ->). done.
  - unfold required_variables in Hset. rewrite !Forall_cons in Hset.
    destruct Hset as (_ & _ & _ & Hurl & _).
    destruct (Hvalue _ Hurl) as (value & -> & _ & ->).
    destruct (remove_trailing_slash_cases value) as [(t & -> & ->)|[_ ->]]; auto.
  - done.
  - intros ->. destruct (JsNumber.parseInt _); [done | by eexists].
Qed.

(** X21: The two copies start alike except on a team identifier that does not
    parse: the second copy then exits, while [src/index.ts] starts and
    its list-tools handler asks the adapter for the scenarios of team
    [NaN]. *)
Theorem startup_team_not_a_number env :
  if forallb (fun name => negb (unset env name)) required_variables
     && isNaN (JsNumber.parseInt (get env "MAKE_TEAM"))
  then
    startup part_000 env = Exit (team_not_a_number (get env "MAKE_TEAM")) /\
    exists settings,
      startup index_ts env = Ready settings /\
      forall remap w,
        head (calls (fst (ListTools_handler remap (config settings) w initial)))
        = Some (CallList NaN)
  else startup index_ts env = startup part_000 env.
Proof.
  destruct (forallb _ _) eqn:Hset; cbn [andb].
  - assert (Forall (fun name => unset env name = false) required_variables) as Hall.
    { apply Forall_forall. intros name Hname.
      rewrite forallb_forall in Hset. apply negb_true_iff, Hset.
      by apply list_elem_of_In. }
    rewrite !(startup_all_set _ env Hall). cbv zeta.
    destruct (JsNumber.parseInt (get env "MAKE_TEAM")) as [|n] eqn:Hteam;
      cbn [isNaN]; [|done].
    split; [done|]. eexists. split; [reflexivity|]. intros remap w.
    cbn [config].
    match goal with |- context [ListTools_handler remap ?c] => set (cfg := c) end.
    destruct (scenarios_list w (teamId cfg)) as [ss|e] eqn:Hlist.
    + by rewrite (ListTools_listed remap cfg w ss Hlist).
    + unfold ListTools_handler, Async.try_catch, Async.bind, make_scenarios_list,
        Async.call, Async.throw.
      by rewrite Hlist.
  - unfold required_variables in Hset. cbn [forallb] in Hset. unfold startup.
    destruct (unset env "MAKE_API_KEY"); [done|].
    destruct (unset env "MAKE_ZONE"); [done|].
    destruct (unset env "MAKE_TEAM"); [done|].
    destruct (unset env "RESULTS_API_URL"); [done|].
    destruct (unset env "RESULTS_API_SECRET_KEY"); [done|].
    discriminate Hset.
Qed.

Lemma unset_insert_ne env k value name :
  k <> name -> unset (<[k := value]> env) name = unset env name.
Proof. intros Hne. unfold unset. by rewrite lookup_insert_ne. Qed.

Lemma unset_insert env k value :
  unset (<[k := value]> env) k = negb (JsString.truthy value).
Proof. unfold unset. by rewrite lookup_insert_eq. Qed.

Lemma get_insert_ne env k value name :
  k <> name -> get (<[k := value]> env) name = get env name.
Proof. intros Hne. unfold get. by rewrite lookup_insert_ne. Qed.

Lemma get_insert env k value : get (<[k := value]> env) k = value.
Proof. unfold get. by rewrite lookup_insert_eq. Qed.

(** X22: A trailing slash on the base URL of the results service makes no
    difference: with or without it the top level ends the same way, with
    the same settings. *)
Theorem startup_ignores_trailing_slash v env base :
  base <> "" ->
  ~ ends_with_slash base ->
  startup v (<["RESULTS_API_URL" := base +:+ "/"]> env)
  = startup v (<["RESULTS_API_URL" := base]> env).
Proof.
  intros Hbase Hends. unfold startup.
  rewrite !unset_insert, !unset_insert_ne, !get_insert, !get_insert_ne by done.
  rewrite remove_trailing_slash_app.
  destruct (remove_trailing_slash_cases base) as [(t & -> & _)|[_ ->]].
  { destruct Hends. by exists t. }
  by destruct base.
Qed.

End StartupFacts.

(** ** The Smithery start command *)

(** X23: The environment the start command of [smithery.yaml] builds has the
    three [MAKE_] variables and no other: on it the top level of either
    copy always exits, and when the three configuration values are not
    empty it exits asking for [RESULTS_API_URL]. *)
Theorem smithery_command_cannot_start v config :
  let env := Smithery.env (Smithery.commandFunction config) in
  (exists message, Startup.startup v env = Startup.Exit message) /\
  (Smithery.makeApiKey config <> "" ->
   Smithery.makeZone config <> "" ->
   Smithery.makeTeamId config <> "" ->
   Startup.startup v env
   = Startup.Exit (Startup.please_provide "RESULTS_API_URL")).
Proof.
  intros env.
  assert (Hurl : Startup.unset env "RESULTS_API_URL" = true).
  { unfold Startup.unset, env. cbn [Smithery.commandFunction Smithery.env].
    by rewrite !lookup_insert_ne, lookup_empty by done. }
  assert (Hkey : Startup.unset env "MAKE_API_KEY"
                 = negb (JsString.truthy (Smithery.makeApiKey config))).
  { unfold env. cbn [Smithery.commandFunction Smithery.env].
    apply unset_insert. }
  assert (Hzone : Startup.unset env "MAKE_ZONE"
                  = negb (JsString.truthy (Smithery.makeZone config))).
  { unfold env. cbn [Smithery.commandFunction Smithery.env].
    rewrite unset_insert_ne by done. apply unset_insert. }
  assert (Hteam : Startup.unset env "MAKE_TEAM"
                  = negb (JsString.truthy (Smithery.makeTeamId config))).
  { unfold env. cbn [Smithery.commandFunction Smithery.env].
    rewrite !unset_insert_ne by done. apply unset_insert. }
  unfold Startup.startup. rewrite Hkey, Hzone, Hteam, Hurl. split.
  - repeat case_match; by eexists.
  - intros Hk Hz Ht.
    destruct (Smithery.makeApiKey config); [done|].
    destruct (Smithery.makeZone config); [done|].
    by destruct (Smithery.makeTeamId config).
Qed.

(** X24: When the variables of the start command are merged over an inherited
    environment (its own values taking precedence), the server can only
    start if the inherited environment provides the two variables of the
    results service; it then runs with the API key and the zone of the
    configuration and with the team identifier parsed from it. *)
Theorem smithery_command_passes_configuration v config inherited settings :
  Startup.startup v (Smithery.env (Smithery.commandFunction config) ∪ inherited)
  = Startup.Ready settings ->
  Startup.apiKey settings = Smithery.makeApiKey config /\
  Startup.zone settings = Smithery.makeZone config /\
  teamId (Startup.config settings) = JsNumber.parseInt (Smithery.makeTeamId config) /\
  (exists url, inherited !! "RESULTS_API_URL" = Some url /\ url <> "") /\
  inherited !! "RESULTS_API_SECRET_KEY"
  = Some (resultsApiSecretKey (Startup.config settings)).
Proof.
  set (env := Smithery.env (Smithery.commandFunction config) ∪ inherited).
  assert (Hkey : env !! "MAKE_API_KEY" = Some (Smithery.makeApiKey config)).
  { apply lookup_union_Some_l. cbn [Smithery.commandFunction Smithery.env].
    apply lookup_insert_eq. }
  assert (Hzone : env !! "MAKE_ZONE" = Some (Smithery.makeZone config)).
  { apply lookup_union_Some_l. cbn [Smithery.commandFunction Smithery.env].
    rewrite lookup_insert_ne by done. apply lookup_insert_eq. }
  assert (Hteam : env !! "MAKE_TEAM" = Some (Smithery.makeTeamId config)).
  { apply lookup_union_Some_l. cbn [Smithery.commandFunction Smithery.env].
    rewrite !lookup_insert_ne by done. apply lookup_insert_eq. }
  assert (Hother : forall name,
             name <> "MAKE_API_KEY" -> name <> "MAKE_ZONE" -> name <> "MAKE_TEAM" ->
             env !! name = inherited !! name).
  { intros name H1 H2 H3. apply lookup_union_r.
    cbn [Smithery.commandFunction Smithery.env].
    by rewrite !lookup_insert_ne, lookup_empty by done. }
  unfold Startup.startup, Startup.unset, Startup.get.
  rewrite Hkey, Hzone, Hteam, !Hother by done. cbn [default from_option].
  intros Hready.
  repeat (case_match; try discriminate Hready); simplify_eq/=.
  all: do 3 (split; [done|]); split; [|done].
  all: match goal with
       | H : negb (JsString.truthy ?x) = false |- exists url, Some ?x = _ /\ _ =>
         exists x; split; [done|]; by destruct x
       end.
Qed.

(** ** What the normalization of the second copy loses *)

(** X25: In the second copy a string output and a number output with the same
    text give the same result: the caller cannot tell [5] from the
    string made of the digit 5. *)
Theorem part_000_string_and_number_alike
    cfg1 request1 w1 runResponse1 res1 retrievedData1
    cfg2 request2 w2 runResponse2 res2 retrievedData2 text :
  test_tool_name (params_name request1) = true ->
  scenarios_run w1 (JsNumber.parseInt (scenarioIdStr request1))
    (params_arguments request1) = Return runResponse1 ->
  fetch w1 (retrieveUrl cfg1 (executionId runResponse1)) (resultsApiSecretKey cfg1)
  = Return res1 ->
  ok res1 = true ->
  JSON_parse w1 (res_body res1) = Return retrievedData1 ->
  get_property retrievedData1 "output" = Return (Some (JString text)) ->
  test_tool_name (params_name request2) = true ->
  scenarios_run w2 (JsNumber.parseInt (scenarioIdStr request2))
    (params_arguments request2) = Return runResponse2 ->
  fetch w2 (retrieveUrl cfg2 (executionId runResponse2)) (resultsApiSecretKey cfg2)
  = Return res2 ->
  ok res2 = true ->
  JSON_parse w2 (res_body res2) = Return retrievedData2 ->
  get_property retrievedData2 "output" = Return (Some (JNumber text)) ->
  snd (Part000.CallTool_handler cfg1 request1 w1 initial)
  = Return {| toolResult := text |} /\
  snd (Part000.CallTool_handler cfg2 request2 w2 initial)
  = Return {| toolResult := text |}.
Proof.
  intros Htest1 Hrun1 Hfetch1 Hok1 Hparse1 Hout1
         Htest2 Hrun2 Hfetch2 Hok2 Hparse2 Hout2.
  change Part000.CallTool_handler with (CallTool_handler part_000).
  rewrite (stage_ok cfg1 request1 w1 part_000 Htest1 runResponse1 res1
             Hrun1 eq_refl Hfetch1 Hok1),
    (stage_ok cfg2 request2 w2 part_000 Htest2 runResponse2 res2
       Hrun2 eq_refl Hfetch2 Hok2).
  unfold retrieved. by rewrite Hparse1, Hout1, Hparse2, Hout2.
Qed.

(** ** The further statements on the sample collaborators *)


Lemma call_tool_failure_ends_with_execution_id_witness :
  let request := Sample.request "run_scenario_42" in
  let w := Cases.results_unreachable in
  let e := new_McpError InternalError
             ("Network error" +:+ " (Make Execution ID: exec-123)") in
  test_tool_name (params_name request) = true /\
  scenarios_run w (JsNumber.parseInt (scenarioIdStr request)) (params_arguments request)
  = Return (Sample.run_response (Some "COMPLETED")) /\
  executionId (Sample.run_response (Some "COMPLETED")) <> "" /\
  snd (CallTool_handler part_000 Sample.cfg request w initial) = Throw e /\
  exists code body,
    e = McpError code (body +:+ " (Make Execution ID: " +:+ "exec-123" +:+ ")").
Proof.
  intros request w e.
  assert (Hid : executionId (Sample.run_response (Some "COMPLETED")) <> "")
    by discriminate.
  split; [reflexivity|]. split; [reflexivity|]. split; [exact Hid|].
  split; [reflexivity|].
  exact (call_tool_failure_ends_with_execution_id part_000 Sample.cfg request w
           (Sample.run_response (Some "COMPLETED")) e eq_refl eq_refl Hid eq_refl).
Defined.

Lemma call_tool_fetch_throws_witness :
  let request := Sample.request "run_scenario_42" in
  let w := Cases.results_unreachable in
  let runResponse := Sample.run_response (Some "COMPLETED") in
  test_tool_name (params_name request) = true /\
  scenarios_run w (JsNumber.parseInt (scenarioIdStr request)) (params_arguments request)
  = Return runResponse /\
  proceeds_to_fetch index_ts runResponse = true /\
  fetch w (retrieveUrl Sample.cfg "exec-123") (resultsApiSecretKey Sample.cfg)
  = Throw Sample.network_error /\
  exists message,
    CallTool_handler index_ts Sample.cfg request w initial
    = ({| calls := [trigger request; retrieve Sample.cfg "exec-123"];
          executionId_var := "exec-123" |},
       Throw (McpError InternalError message)) /\
    JsString.includes message "Network error" = true /\
    JsString.includes message "exec-123" = true.
Proof.
  intros request w runResponse. repeat (split; [reflexivity|]).
  exact (call_tool_fetch_throws index_ts Sample.cfg request w runResponse
           eq_refl eq_refl eq_refl Sample.network_error eq_refl).
Defined.

Lemma call_tool_retrieval_status_witness :
  let request := Sample.request "run_scenario_42" in
  let body := JObject [("error", JString "boom")] in
  let w := Sample.results (Some "COMPLETED") 500 body in
  let runResponse := Sample.run_response (Some "COMPLETED") in
  let res := Sample.response 500 body in
  test_tool_name (params_name request) = true /\
  scenarios_run w (JsNumber.parseInt (scenarioIdStr request)) (params_arguments request)
  = Return runResponse /\
  proceeds_to_fetch index_ts runResponse = true /\
  fetch w (retrieveUrl Sample.cfg "exec-123") (resultsApiSecretKey Sample.cfg)
  = Return res /\
  ok res = false /\
  res_status res <> 404 /\
  Json.to_string (error_detail w res) = Some "boom" /\
  exists message,
    CallTool_handler index_ts Sample.cfg request w initial
    = ({| calls := [trigger request; retrieve Sample.cfg "exec-123"];
          executionId_var := "exec-123" |},
       Throw (McpError InternalError message)) /\
    JsString.includes message "500" = true /\
    JsString.includes message "boom" = true /\
    JsString.includes message "exec-123" = true.
Proof.
  intros request body w runResponse res.
  assert (Hstatus : res_status res <> 404) by discriminate.
  do 5 (split; [reflexivity|]). split; [exact Hstatus|]. split; [reflexivity|].
  exact (call_tool_retrieval_status index_ts Sample.cfg request w runResponse
           eq_refl eq_refl eq_refl res "boom" eq_refl eq_refl Hstatus eq_refl).
Defined.

Lemma call_tool_retrieval_plain_text_witness :
  let request := Sample.request "run_scenario_42" in
  let w := Cases.plain_text 503 "Service Unavailable" in
  let runResponse := Sample.run_response (Some "COMPLETED") in
  let res := {| res_status := 503; res_body := "Service Unavailable" |} in
  test_tool_name (params_name request) = true /\
  scenarios_run w (JsNumber.parseInt (scenarioIdStr request)) (params_arguments request)
  = Return runResponse /\
  proceeds_to_fetch part_000 runResponse = true /\
  fetch w (retrieveUrl Sample.cfg "exec-123") (resultsApiSecretKey Sample.cfg)
  = Return res /\
  ok res = false /\
  JSON_parse w (res_body res) = Throw Sample.syntax_error /\
  exists message,
    snd (CallTool_handler part_000 Sample.cfg request w initial)
    = Throw (McpError InternalError message) /\
    JsString.includes message "Service Unavailable" = true.
Proof.
  intros request w runResponse res. repeat (split; [reflexivity|]).
  exact (call_tool_retrieval_plain_text part_000 Sample.cfg request w runResponse
           eq_refl eq_refl eq_refl res Sample.syntax_error eq_refl eq_refl eq_refl).
Defined.

Lemma call_tool_success_body_not_json_witness :
  let request := Sample.request "run_scenario_42" in
  let w := Cases.plain_text 200 "done" in
  let runResponse := Sample.run_response (Some "COMPLETED") in
  let res := {| res_status := 200; res_body := "done" |} in
  test_tool_name (params_name request) = true /\
  scenarios_run w (JsNumber.parseInt (scenarioIdStr request)) (params_arguments request)
  = Return runResponse /\
  proceeds_to_fetch part_000 runResponse = true /\
  fetch w (retrieveUrl Sample.cfg "exec-123") (resultsApiSecretKey Sample.cfg)
  = Return res /\
  ok res = true /\
  JSON_parse w (res_body res) = Throw Sample.syntax_error /\
  exists message,
    snd (CallTool_handler part_000 Sample.cfg request w initial)
    = Throw (McpError InternalError message) /\
    JsString.includes message "Unexpected token" = true /\
    JsString.includes message "exec-123" = true.
Proof.
  intros request w runResponse res. repeat (split; [reflexivity|]).
  exact (call_tool_success_body_not_json part_000 Sample.cfg request w runResponse
           eq_refl eq_refl eq_refl res Sample.syntax_error eq_refl eq_refl eq_refl).
Defined.

Lemma call_tool_success_body_shapes_witness :
  let request := Sample.request "run_scenario_42" in
  let w := Sample.results None 204 JNull in
  let runResponse := Sample.run_response None in
  let res := Sample.response 204 JNull in
  test_tool_name (params_name request) = true /\
  scenarios_run w (JsNumber.parseInt (scenarioIdStr request)) (params_arguments request)
  = Return runResponse /\
  proceeds_to_fetch part_000 runResponse = true /\
  fetch w (retrieveUrl Sample.cfg "exec-123") (resultsApiSecretKey Sample.cfg)
  = Return res /\
  200 <= res_status res <= 299 /\
  JSON_parse w (res_body res) = Return JNull /\
  exists message,
    snd (CallTool_handler part_000 Sample.cfg request w initial)
    = Throw (McpError InternalError message) /\
    JsString.includes message "exec-123" = true.
Proof.
  intros request w runResponse res.
  assert (Hstatus : 200 <= res_status res <= 299) by (cbn; lia).
  do 4 (split; [reflexivity|]). split; [exact Hstatus|]. split; [reflexivity|].
  exact (call_tool_success_body_shapes part_000 Sample.cfg request w runResponse
           eq_refl eq_refl eq_refl res JNull eq_refl Hstatus eq_refl).
Defined.

Lemma part_000_string_and_number_alike_witness :
  let request := Sample.request "run_scenario_42" in
  let body1 := JObject [("output", JString "5")] in
  let body2 := JObject [("output", JNumber "5")] in
  snd (Part000.CallTool_handler Sample.cfg request
         (Sample.results None 200 body1) initial)
  = Return {| toolResult := "5" |} /\
  snd (Part000.CallTool_handler Sample.cfg request
         (Sample.results None 200 body2) initial)
  = Return {| toolResult := "5" |}.
Proof.
  intros request body1 body2.
  exact (part_000_string_and_number_alike
           Sample.cfg request (Sample.results None 200 body1)
           (Sample.run_response None) (Sample.response 200 body1) body1
           Sample.cfg request (Sample.results None 200 body2)
           (Sample.run_response None) (Sample.response 200 body2) body2 "5"
           eq_refl eq_refl eq_refl eq_refl eq_refl eq_refl
           eq_refl eq_refl eq_refl eq_refl eq_refl eq_refl).
Defined.


Lemma leading_zero_is_an_alias_witness :
  "42" <> "" /\
  JsNumber.all_digits "42" = true /\
  test_tool_name "run_scenario_42" = true /\
  test_tool_name "run_scenario_042" = true /\
  trigger {| params_name := "run_scenario_042"; params_arguments := None |}
  = trigger {| params_name := "run_scenario_42"; params_arguments := None |}.
Proof.
  assert (Hnonempty : "42" <> "") by discriminate.
  split; [exact Hnonempty|]. split; [reflexivity|].
  exact (leading_zero_is_an_alias "42" None Hnonempty eq_refl).
Defined.

Lemma negative_identifier_not_callable_witness :
  -5 < 0 /\
  CallTool_handler part_000 Sample.cfg
    {| params_name := toolName (-5); params_arguments := None |} Sample.offline initial
  = ({| calls := []; executionId_var := "" |},
     Throw (new_McpError InvalidRequest ("Unknown tool: " +:+ toolName (-5)))).
Proof.
  assert (Hneg : -5 < 0) by lia.
  split; [exact Hneg|].
  exact (negative_identifier_not_callable part_000 Sample.cfg Sample.offline (-5)
           None Hneg).
Defined.


Lemma listed_tool_names_distinct_witness :
  let w := Sample.catalog [3] in
  let ss := [Sample.scenario_A; Sample.scenario_B; Sample.scenario_C] in
  let tools := snd (ListTools_handler Utils.remap_or_throw Sample.cfg w initial) in
  scenarios_list w (teamId Sample.cfg) = Return ss /\
  NoDup (map id (filter on_demand ss)) /\
  exists st tools,
    ListTools_handler Utils.remap_or_throw Sample.cfg w initial = (st, Return tools) /\
    NoDup (map tool_name tools).
Proof.
  intros w ss tools.
  assert (Hids : NoDup (map id (filter on_demand ss))).
  { change (NoDup [1; 3]). apply NoDup_cons. split.
    - intros [Hin|Hin]%elem_of_cons; [discriminate Hin | by apply elem_of_nil in Hin].
    - apply NoDup_singleton. }
  split; [reflexivity|]. split; [exact Hids|].
  eexists _, _. split; [reflexivity|].
  exact (listed_tool_names_distinct Utils.remap_or_throw Sample.cfg w ss _ _
           eq_refl eq_refl Hids).
Defined.

Lemma startup_reports_first_missing_witness :
  let env := Smithery.env (Smithery.commandFunction Cases.smithery_config) in
  required_variables
  = ["MAKE_API_KEY"; "MAKE_ZONE"; "MAKE_TEAM"] ++
    "RESULTS_API_URL" :: ["RESULTS_API_SECRET_KEY"] /\
  Forall (fun n => Startup.unset env n = false)
         ["MAKE_API_KEY"; "MAKE_ZONE"; "MAKE_TEAM"] /\
  Startup.unset env "RESULTS_API_URL" = true /\
  Startup.startup part_000 env
  = Startup.Exit (Startup.please_provide "RESULTS_API_URL").
Proof.
  intros env.
  assert (Hbefore : Forall (fun n => Startup.unset env n = false)
                           ["MAKE_API_KEY"; "MAKE_ZONE"; "MAKE_TEAM"])
    by (repeat constructor; vm_compute; reflexivity).
  assert (Hname : Startup.unset env "RESULTS_API_URL" = true)
    by (vm_compute; reflexivity).
  split; [reflexivity|]. split; [exact Hbefore|]. split; [exact Hname|].
  exact (startup_reports_first_missing part_000 env
           ["MAKE_API_KEY"; "MAKE_ZONE"; "MAKE_TEAM"] "RESULTS_API_URL"
           ["RESULTS_API_SECRET_KEY"] eq_refl Hbefore Hname).
Defined.

Lemma startup_ready_witness :
  let settings :=
    {| Startup.apiKey := "key"; Startup.zone := "eu2.make.com";
       Startup.config := Sample.cfg |} in
  Startup.startup part_000 Cases.environment = Startup.Ready settings /\
  Forall (fun name => exists value,
              Cases.environment !! name = Some value /\ value <> "")
         required_variables /\
  Cases.environment !! "RESULTS_API_SECRET_KEY" = Some "secret" /\
  (Cases.environment !! "RESULTS_API_URL" = Some "https://results.example" \/
   Cases.environment !! "RESULTS_API_URL"
   = Some ("https://results.example" +:+ "/")) /\
  teamId Sample.cfg = JsNumber.parseInt (Startup.get Cases.environment "MAKE_TEAM") /\
  (part_000 = part_000 -> exists n, teamId Sample.cfg = Int n).
Proof.
  intros settings.
  assert (Hready : Startup.startup part_000 Cases.environment = Startup.Ready settings)
    by (vm_compute; reflexivity).
  split; [exact Hready|].
  exact (startup_ready part_000 Cases.environment settings Hready).
Defined.

Lemma startup_ignores_trailing_slash_witness :
  let base := "https://results.example" in
  base <> "" /\
  ~ ends_with_slash base /\
  Startup.startup index_ts (<["RESULTS_API_URL" := base +:+ "/"]> Cases.environment)
  = Startup.startup index_ts (<["RESULTS_API_URL" := base]> Cases.environment).
Proof.
  intros base.
  assert (Hbase : base <> "") by discriminate.
  assert (Hends : ~ ends_with_slash base).
  { intros [t Ht].
    pose proof (f_equal Startup.remove_trailing_slash Ht) as Hremoved.
    rewrite remove_trailing_slash_app in Hremoved.
    vm_compute in Hremoved. subst t. discriminate Ht. }
  split; [exact Hbase|]. split; [exact Hends|].
  exact (startup_ignores_trailing_slash index_ts Cases.environment base Hbase Hends).
Defined.

Lemma smithery_command_cannot_start_witness :
  let env := Smithery.env (Smithery.commandFunction Cases.smithery_config) in
  Smithery.makeApiKey Cases.smithery_config <> "" /\
  Smithery.makeZone Cases.smithery_config <> "" /\
  Smithery.makeTeamId Cases.smithery_config <> "" /\
  Startup.startup index_ts env
  = Startup.Exit (Startup.please_provide "RESULTS_API_URL").
Proof.
  intros env.
  assert (Hkey : Smithery.makeApiKey Cases.smithery_config <> "") by discriminate.
  assert (Hzone : Smithery.makeZone Cases.smithery_config <> "") by discriminate.
  assert (Hteam : Smithery.makeTeamId Cases.smithery_config <> "") by discriminate.
  split; [exact Hkey|]. split; [exact Hzone|]. split; [exact Hteam|].
  exact (proj2 (smithery_command_cannot_start index_ts Cases.smithery_config)
           Hkey Hzone Hteam).
Defined.

Lemma smithery_command_passes_configuration_witness :
  let env := Smithery.env (Smithery.commandFunction Cases.smithery_config)
             ∪ Cases.results_environment in
  let settings :=
    {| Startup.apiKey := "key"; Startup.zone := "eu2.make.com";
       Startup.config := Sample.cfg |} in
  Startup.startup part_000 env = Startup.Ready settings /\
  Startup.apiKey settings = "key" /\
  Startup.zone settings = "eu2.make.com" /\
  teamId (Startup.config settings) = JsNumber.parseInt "7" /\
  (exists url, Cases.results_environment !! "RESULTS_API_URL" = Some url /\ url <> "") /\
  Cases.results_environment !! "RESULTS_API_SECRET_KEY" = Some "secret".
Proof.
  intros env settings.
  assert (Hready : Startup.startup part_000 env = Startup.Ready settings)
    by (vm_compute; reflexivity).
  split; [exact Hready|].
  exact (smithery_command_passes_configuration part_000 Cases.smithery_config
           Cases.results_environment settings Hready).
Defined.

Lemma call_tool_retrieval_error_member_unusable_witness :
  let request := Sample.request "run_scenario_42" in
  let body := JObject [("error", JString ""); ("code", JNumber "17")] in
  let w := Sample.results None 502 body in
  let runResponse := Sample.run_response None in
  let res := Sample.response 502 body in
  test_tool_name (params_name request) = true /\
  scenarios_run w (JsNumber.parseInt (scenarioIdStr request)) (params_arguments request)
  = Return runResponse /\
  proceeds_to_fetch part_000 runResponse = true /\
  fetch w (retrieveUrl Sample.cfg "exec-123") (resultsApiSecretKey Sample.cfg)
  = Return res /\
  ok res = false /\
  JSON_parse w (res_body res) = Return body /\
  Json.truthy (JString "") = false /\
  exists message,
    snd (CallTool_handler part_000 Sample.cfg request w initial)
    = Throw (McpError InternalError message) /\
    JsString.includes message (res_body res) = true.
Proof.
  intros request body w runResponse res. repeat (split; [reflexivity|]).
  exact (call_tool_retrieval_error_member_unusable part_000 Sample.cfg request w
           runResponse eq_refl eq_refl eq_refl res
           [("error", JString ""); ("code", JNumber "17")]
           eq_refl eq_refl eq_refl eq_refl).
Defined.

Lemma call_tool_retrieval_detail_not_text_witness :
  let request := Sample.request "run_scenario_42" in
  let body := JObject [("error", JObject [("toString", JNumber "1")])] in
  let w := Sample.results None 404 body in
  let runResponse := Sample.run_response None in
  let res := Sample.response 404 body in
  test_tool_name (params_name request) = true /\
  scenarios_run w (JsNumber.parseInt (scenarioIdStr request)) (params_arguments request)
  = Return runResponse /\
  proceeds_to_fetch part_000 runResponse = true /\
  fetch w (retrieveUrl Sample.cfg "exec-123") (resultsApiSecretKey Sample.cfg)
  = Return res /\
  ok res = false /\
  Json.to_string (error_detail w res) = None /\
  snd (CallTool_handler part_000 Sample.cfg request w initial)
  = Throw (new_McpError InternalError
             ("Cannot convert object to primitive value"
              +:+ execution_suffix "exec-123")).
Proof.
  intros request body w runResponse res. repeat (split; [reflexivity|]).
  exact (call_tool_retrieval_detail_not_text part_000 Sample.cfg request w
           runResponse eq_refl eq_refl eq_refl res eq_refl eq_refl eq_refl).
Defined.
